(** * prometheus_sanic: request-metrics instrumentation for a Sanic server

    A shallow embedding of [prometheus_sanic/base.py] ([MonitorSetup] and
    [monitor]) together with the collaborators it calls: the Sanic
    application object, the Prometheus client library and the sibling
    modules [endpoint], [metrics] and [handlers].

    Python code that reads or mutates process state is written in a small
    state-and-exception monad [M] over a record [World]; the closures that
    [monitor] registers with the application are Rocq functions of the same
    names. *)

From Stdlib Require Import ZArith String Ascii List Bool Lia.
From stdpp Require Import base option gmap strings list.
Import ListNotations.
Local Open Scope string_scope.
Local Open Scope list_scope.

(** ** Python values

    [monitor] tests its [is_middleware] argument with [is True], an identity
    test: only the boolean [True] passes, not a truthy value of another
    type. *)

Inductive PyObj :=
| PyNone
| PyBool (b : bool)
| PyInt (n : Z)
| PyStr (s : string).

Definition is_True (o : PyObj) : bool :=
  match o with
  | PyBool true => true
  | _ => false
  end.

(** ** Requests and responses *)

(** The per-request context of the spec's data model: start timestamp,
    path and method, written by the before-hook. *)
Record RequestContext := {
  rc_start : Z;
  rc_path : string;
  rc_method : string
}.

Record Request := {
  path : string;
  method : string;
  ctx : option RequestContext
}.

Definition set_ctx (c : option RequestContext) (r : Request) : Request :=
  {| path := path r; method := method r; ctx := c |}.

Record Response := {
  status : Z;
  body : string;
  content_type : string
}.

(** ** Metric instruments *)

Inductive MetricKind := Counter | Histogram | Gauge.

(** One recorded update of an instrument: the label set it was recorded
    under (label name, label value) and the amount (the observed value of a
    histogram, the increment of a counter). *)
Record Sample := {
  s_labels : list (string * string);
  s_value : Z
}.

Record Instrument := {
  i_name : string;
  i_kind : MetricKind;
  i_labelnames : list string;
  i_buckets : option (list Z);
  i_multiprocess_mode : string;
  i_samples : list Sample          (* newest first *)
}.

Definition add_sample (s : Sample) (i : Instrument) : Instrument :=
  {| i_name := i_name i; i_kind := i_kind i; i_labelnames := i_labelnames i;
     i_buckets := i_buckets i; i_multiprocess_mode := i_multiprocess_mode i;
     i_samples := s :: i_samples i |}.

(** What a registry holds: metric instruments (by object identity), the
    multiprocess collector, and collectors registered by other code of the
    process. *)
Inductive Collector :=
| instrument_collector (ref : nat)
| multiprocess_collector
| foreign_collector (name : string).

Inductive RegistryRef :=
| core_REGISTRY
| registry_object (id : nat).

(** ** Calls observed at the hook boundary *)

Inductive Call :=
| before_handler_called (p m : string)
| route_dispatched (p m : string)
| after_handler_called (p m : string) (st : Z).

Definition is_hook_call (c : Call) : bool :=
  match c with
  | route_dispatched _ _ => false
  | _ => true
  end.

(** ** Process state *)

Record World := {
  (* os.environ *)
  environ : gmap string string;
  (* os.getpid() *)
  pid : Z;
  (* reading of the time source *)
  clock : Z;
  (* app.ctx.metrics: key -> instrument *)
  ctx_metrics : gmap string nat;
  (* instrument objects *)
  instruments : gmap nat Instrument;
  (* prometheus_client.core.REGISTRY *)
  REGISTRY : list Collector;
  (* other live CollectorRegistry objects *)
  registries : gmap nat (list Collector);
  (* shard files of the workers, by pid *)
  multiproc_dir : gmap Z string;
  (* pids passed to mark_process_dead *)
  marked_dead : list Z;
  (* listeners bound by start_http_server *)
  http_servers : list (string * Z);
  (* hook and dispatch calls, oldest first *)
  calls : list Call;
  (* the host's refusal of a bind, given the listeners bound so far *)
  bind_error : list (string * Z) -> string -> Z -> option string;
  (* what the collectors of other code read *)
  process_stats : gmap string Z;
  (* dict objects of the caller, by identity *)
  dict_objects : gmap nat (gmap string nat);
  (* the caller's dict that app.ctx.metrics is, if it is one *)
  ctx_metrics_obj : option nat
}.

Definition set_clock (x : Z) (w : World) : World :=
  {| environ := environ w; pid := pid w; clock := x;
     ctx_metrics := ctx_metrics w; instruments := instruments w;
     REGISTRY := REGISTRY w; registries := registries w;
     multiproc_dir := multiproc_dir w; marked_dead := marked_dead w;
     http_servers := http_servers w; calls := calls w;
     bind_error := bind_error w; process_stats := process_stats w;
     dict_objects := dict_objects w; ctx_metrics_obj := ctx_metrics_obj w |}.

Definition set_ctx_metrics (x : gmap string nat) (w : World) : World :=
  {| environ := environ w; pid := pid w; clock := clock w; ctx_metrics := x;
     instruments := instruments w; REGISTRY := REGISTRY w;
     registries := registries w; multiproc_dir := multiproc_dir w;
     marked_dead := marked_dead w; http_servers := http_servers w;
     calls := calls w; bind_error := bind_error w;
     process_stats := process_stats w; dict_objects := dict_objects w;
     ctx_metrics_obj := ctx_metrics_obj w |}.

Definition set_instruments (x : gmap nat Instrument) (w : World) : World :=
  {| environ := environ w; pid := pid w; clock := clock w;
     ctx_metrics := ctx_metrics w; instruments := x; REGISTRY := REGISTRY w;
     registries := registries w; multiproc_dir := multiproc_dir w;
     marked_dead := marked_dead w; http_servers := http_servers w;
     calls := calls w; bind_error := bind_error w;
     process_stats := process_stats w; dict_objects := dict_objects w;
     ctx_metrics_obj := ctx_metrics_obj w |}.

Definition set_REGISTRY (x : list Collector) (w : World) : World :=
  {| environ := environ w; pid := pid w; clock := clock w;
     ctx_metrics := ctx_metrics w; instruments := instruments w;
     REGISTRY := x; registries := registries w;
     multiproc_dir := multiproc_dir w; marked_dead := marked_dead w;
     http_servers := http_servers w; calls := calls w;
     bind_error := bind_error w; process_stats := process_stats w;
     dict_objects := dict_objects w; ctx_metrics_obj := ctx_metrics_obj w |}.

Definition set_registries (x : gmap nat (list Collector)) (w : World) : World :=
  {| environ := environ w; pid := pid w; clock := clock w;
     ctx_metrics := ctx_metrics w; instruments := instruments w;
     REGISTRY := REGISTRY w; registries := x;
     multiproc_dir := multiproc_dir w; marked_dead := marked_dead w;
     http_servers := http_servers w; calls := calls w;
     bind_error := bind_error w; process_stats := process_stats w;
     dict_objects := dict_objects w; ctx_metrics_obj := ctx_metrics_obj w |}.

Definition set_marked_dead (x : list Z) (w : World) : World :=
  {| environ := environ w; pid := pid w; clock := clock w;
     ctx_metrics := ctx_metrics w; instruments := instruments w;
     REGISTRY := REGISTRY w; registries := registries w;
     multiproc_dir := multiproc_dir w; marked_dead := x;
     http_servers := http_servers w; calls := calls w;
     bind_error := bind_error w; process_stats := process_stats w;
     dict_objects := dict_objects w; ctx_metrics_obj := ctx_metrics_obj w |}.

Definition set_http_servers (x : list (string * Z)) (w : World) : World :=
  {| environ := environ w; pid := pid w; clock := clock w;
     ctx_metrics := ctx_metrics w; instruments := instruments w;
     REGISTRY := REGISTRY w; registries := registries w;
     multiproc_dir := multiproc_dir w; marked_dead := marked_dead w;
     http_servers := x; calls := calls w; bind_error := bind_error w;
     process_stats := process_stats w; dict_objects := dict_objects w;
     ctx_metrics_obj := ctx_metrics_obj w |}.

Definition set_calls (x : list Call) (w : World) : World :=
  {| environ := environ w; pid := pid w; clock := clock w;
     ctx_metrics := ctx_metrics w; instruments := instruments w;
     REGISTRY := REGISTRY w; registries := registries w;
     multiproc_dir := multiproc_dir w; marked_dead := marked_dead w;
     http_servers := http_servers w; calls := x; bind_error := bind_error w;
     process_stats := process_stats w; dict_objects := dict_objects w;
     ctx_metrics_obj := ctx_metrics_obj w |}.

Definition set_dict_objects (x : gmap nat (gmap string nat)) (w : World) : World :=
  {| environ := environ w; pid := pid w; clock := clock w;
     ctx_metrics := ctx_metrics w; instruments := instruments w;
     REGISTRY := REGISTRY w; registries := registries w;
     multiproc_dir := multiproc_dir w; marked_dead := marked_dead w;
     http_servers := http_servers w; calls := calls w;
     bind_error := bind_error w; process_stats := process_stats w;
     dict_objects := x; ctx_metrics_obj := ctx_metrics_obj w |}.

Definition set_ctx_metrics_obj (x : option nat) (w : World) : World :=
  {| environ := environ w; pid := pid w; clock := clock w;
     ctx_metrics := ctx_metrics w; instruments := instruments w;
     REGISTRY := REGISTRY w; registries := registries w;
     multiproc_dir := multiproc_dir w; marked_dead := marked_dead w;
     http_servers := http_servers w; calls := calls w;
     bind_error := bind_error w; process_stats := process_stats w;
     dict_objects := dict_objects w; ctx_metrics_obj := x |}.

(** ** The monad of Python code: state and exceptions

    An exception does not roll the state back, so both outcomes carry the
    state reached. *)

Inductive Exn :=
| SanicPrometheusError (msg : string)
| ValueError (msg : string)
| OverflowError (msg : string)
| OSError (msg : string).

Inductive Outcome (A : Type) :=
| Returned (a : A) (w : World)
| Raised (e : Exn) (w : World).
Arguments Returned {A} a w.
Arguments Raised {A} e w.

Definition M (A : Type) : Type := World -> Outcome A.

Definition ret {A} (a : A) : M A := fun w => Returned a w.

Definition bind {A B} (m : M A) (k : A -> M B) : M B :=
  fun w =>
    match m w with
    | Returned a w' => k a w'
    | Raised e w' => Raised e w'
    end.

Definition raise {A} (e : Exn) : M A := fun w => Raised e w.
Definition gets {A} (f : World -> A) : M A := fun w => Returned (f w) w.
Definition modify (f : World -> World) : M unit := fun w => Returned tt (f w).

Declare Scope py_scope.
Delimit Scope py_scope with py.
Notation "x <- c1 ;; c2" := (bind c1 (fun x => c2))
  (at level 100, c1 at next level, right associativity) : py_scope.
Notation "c1 ;; c2" := (bind c1 (fun _ => c2))
  (at level 100, right associativity) : py_scope.
Local Open Scope py_scope.

Definition final_world {A} (o : Outcome A) : World :=
  match o with
  | Returned _ w => w
  | Raised _ w => w
  end.

Definition log_call (c : Call) : M unit :=
  modify (fun w => set_calls (calls w ++ [c]) w).

(** [app.ctx.metrics[key] = ref]. The dictionary is an object: when it is
    a dict of the caller, the caller's dict is what is written. *)
Definition ctx_metrics_setitem (key : string) (ref : nat) : M unit :=
  modify (fun w =>
    let m := <[key := ref]> (ctx_metrics w) in
    set_ctx_metrics m
      (match ctx_metrics_obj w with
       | Some id => set_dict_objects (<[id := m]> (dict_objects w)) w
       | None => w
       end)).

(** [for x in xs: f x] *)
Fixpoint for_each {A} (f : A -> M unit) (xs : list A) : M unit :=
  match xs with
  | [] => ret tt
  | x :: xs' => f x ;; for_each f xs'
  end.

(** ** The Prometheus client library (external)

    Only the operations that [base.py] and the hooks call are modelled. The
    text serializer itself and the content type constant belong to the
    library and are taken as parameters. Timestamps and observed values are
    integers (clock ticks); the file-backed value store that the library
    uses in multiprocess mode is represented by [multiproc_dir] only. A
    collector registered by other code (the process and garbage collector
    ones, a collector of the application) reads the state of the process,
    [process_stats], so its text differs from one moment to the next. *)

Record ClientLibrary := {
  CONTENT_TYPE_LATEST : string;
  text_of_instrument : Instrument -> string;
  text_of_multiproc : gmap Z string -> string;
  text_of_foreign : string -> gmap string Z -> string
}.

Module prometheus_client.

(** [metric.labels] applied to label values: one value per declared label name. *)
Definition labels (i : Instrument) (values : list string)
  : option (list (string * string)) :=
  if Nat.eqb (length values) (length (i_labelnames i))
  then Some (combine (i_labelnames i) values)
  else None.

(** [CollectorRegistry()]: a new, empty registry object. *)
Definition CollectorRegistry : M nat :=
  fun w =>
    let id := fresh (dom (registries w)) in
    Returned id (set_registries (<[id := []]> (registries w)) w).

(** [multiprocess.MultiProcessCollector(registry)] registers itself with
    the registry it is given. *)
Definition MultiProcessCollector (registry : nat) : M unit :=
  modify (fun w =>
    set_registries
      (alter (fun cs => cs ++ [multiprocess_collector]) registry (registries w)) w).

(** The last reference to a registry object goes away. *)
Definition del (registry : nat) : M unit :=
  modify (fun w => set_registries (delete registry (registries w)) w).

Definition collectors_of (registry : RegistryRef) (w : World) : list Collector :=
  match registry with
  | core_REGISTRY => REGISTRY w
  | registry_object id => default [] (registries w !! id)
  end.

Section Exposition.
Variable lib : ClientLibrary.

Definition collect_text (w : World) (c : Collector) : string :=
  match c with
  | instrument_collector ref =>
      match instruments w !! ref with
      | Some i => text_of_instrument lib i
      | None => ""
      end
  | multiprocess_collector => text_of_multiproc lib (multiproc_dir w)
  | foreign_collector name => text_of_foreign lib name (process_stats w)
  end.

(** [generate_latest(registry)]: the exposition of every collector of
    the registry, in registration order. *)
Definition generate_latest (registry : RegistryRef) : M string :=
  gets (fun w => String.concat "" (map (collect_text w) (collectors_of registry w))).
End Exposition.

(** Why a bind of [addr:port] fails, if it does: a port outside 0..65535
    is an [OverflowError]; otherwise the host may refuse (address in use,
    permission denied, unknown address) with an [OSError]. *)
Definition bind_failure (addr : string) (port : Z) (w : World) : option Exn :=
  if negb (Z.leb 0 port && Z.leb port 65535)
  then Some (OverflowError "bind(): port must be 0-65535.")
  else
    match bind_error w (http_servers w) addr port with
    | Some msg => Some (OSError msg)
    | None => None
    end.

(** [start_http_server(addr=..., port=...)] binds a standalone listener,
    or raises the error of the bind. *)
Definition start_http_server (addr : string) (port : Z) : M unit :=
  fun w =>
    match bind_failure addr port w with
    | Some e => Raised e w
    | None => Returned tt (set_http_servers (http_servers w ++ [(addr, port)]) w)
    end.

(** [multiprocess.mark_process_dead(pid)] *)
Definition mark_process_dead (p : Z) : M unit :=
  modify (fun w => set_marked_dead (marked_dead w ++ [p]) w).

End prometheus_client.

(** ** The Sanic application object (external)

    The server runs the request middleware, dispatches to the route handler
    and runs the response middleware; listeners run at the named server
    events. Middleware and handlers mutate the request they are given, so
    they return it. *)

Module sanic.

Record Route := {
  r_path : string;
  r_methods : list string;
  r_handler : Request -> M Response
}.

Record App := {
  routes : list Route;
  listeners : list (string * M unit);
  request_middleware : list (Request -> M Request);
  response_middleware : list (Request -> Response -> M Request)
}.

Definition empty_app : App :=
  {| routes := []; listeners := [];
     request_middleware := []; response_middleware := [] |}.

(** [@app.route(uri, methods=...)] *)
Definition route (uri : string) (methods : list string)
    (handler : Request -> M Response) (app : App) : App :=
  {| routes := routes app ++ [{| r_path := uri; r_methods := methods; r_handler := handler |}];
     listeners := listeners app;
     request_middleware := request_middleware app;
     response_middleware := response_middleware app |}.

(** [@app.listener(event)] *)
Definition listener (event : string) (f : M unit) (app : App) : App :=
  {| routes := routes app;
     listeners := listeners app ++ [(event, f)];
     request_middleware := request_middleware app;
     response_middleware := response_middleware app |}.

(** [@app.middleware('request')] *)
Definition middleware_request (f : Request -> M Request) (app : App) : App :=
  {| routes := routes app;
     listeners := listeners app;
     request_middleware := request_middleware app ++ [f];
     response_middleware := response_middleware app |}.

(** [@app.middleware('response')] *)
Definition middleware_response (f : Request -> Response -> M Request) (app : App) : App :=
  {| routes := routes app;
     listeners := listeners app;
     request_middleware := request_middleware app;
     response_middleware := response_middleware app ++ [f] |}.

(** [sanic.response.raw(body, content_type=...)] *)
Definition raw (data : string) (ct : string) : Response :=
  {| status := 200; body := data; content_type := ct |}.

Definition not_found : Response :=
  {| status := 404; body := ""; content_type := "text/plain" |}.

Definition method_not_allowed : Response :=
  {| status := 405; body := ""; content_type := "text/plain" |}.

Fixpoint run_request_middleware (mws : list (Request -> M Request))
    (r : Request) : M Request :=
  match mws with
  | [] => ret r
  | mw :: rest => r' <- mw r ;; run_request_middleware rest r'
  end.

Fixpoint run_response_middleware (mws : list (Request -> Response -> M Request))
    (r : Request) (resp : Response) : M Request :=
  match mws with
  | [] => ret r
  | mw :: rest => r' <- mw r resp ;; run_response_middleware rest r' resp
  end.

(** The path without its trailing separator, if it has one. *)
Fixpoint strip_slash (p : string) : string :=
  match p with
  | EmptyString => EmptyString
  | String c rest =>
      match rest with
      | EmptyString => if Ascii.eqb c "/" then EmptyString else p
      | _ => String c (strip_slash rest)
      end
  end.

(** A route answers its path with or without a trailing separator (the
    server's default, strict slashes being off). The path of the request
    stays as it was sent. *)
Definition same_route (route_path p : string) : bool :=
  String.eqb (strip_slash route_path) (strip_slash p).

Fixpoint find_route (rs : list Route) (p : string) : option Route :=
  match rs with
  | [] => None
  | rt :: rest => if same_route (r_path rt) p then Some rt else find_route rest p
  end.

Definition dispatch (app : App) (r : Request) : M Response :=
  log_call (route_dispatched (path r) (method r)) ;;
  match find_route (routes app) (path r) with
  | None => ret not_found
  | Some rt =>
      if existsb (String.eqb (method r)) (r_methods rt)
      then r_handler rt r
      else ret method_not_allowed
  end.

(** One request/response cycle. *)
Definition handle_request (app : App) (r : Request) : M Response :=
  r1 <- run_request_middleware (request_middleware app) r ;;
  resp <- dispatch app r1 ;;
  run_response_middleware (response_middleware app) r1 resp ;;
  ret resp.

(** The server reaches [event]: its listeners run in registration order. *)
Definition trigger (event : string) (app : App) : M unit :=
  for_each snd (List.filter (fun l => String.eqb (fst l) event) (listeners app)).

End sanic.

(** ** prometheus_sanic.constants, prometheus_sanic.endpoint,
       prometheus_sanic.metrics, prometheus_sanic.handlers *)

(** Modelled from the spec: the base metric-name set of
    [constants.BaseMetrics], which is not among the sources: the names
    under which the two request metrics are exposed. The names themselves
    are a parameter of the development. *)
Record BaseMetricsT := {
  RQS_LATENCY : string;
  RQS_COUNT : string
}.

(** Modelled from the spec: the keys of the two request metrics in
    [app.ctx.metrics]. [monitor] passes [base_metrics] to [metrics.init]
    only, and the hooks receive the request, the response and the resolver
    (base.py, lines 127 to 141); the hooks record one sample per request
    whatever [base_metrics] is, so they find the two metrics under keys
    that do not depend on it. *)
Definition latency_key : string := "RQS_LATENCY".
Definition count_key : string := "RQS_COUNT".

Module endpoint.

(** The strategies that the docstring of [monitor] lists for
    [endpoint_type]: ['url'], ['url:n'] and ['custom'] (the spec's full,
    truncate:n and custom modes), in parsed form. *)
Inductive EndpointType :=
| url
| url_n (n : nat)
| custom.

(** [s.split(sep)], the split that the spec's truncate strategy starts
    with. *)
Fixpoint split_on (sep : ascii) (s : string) : list string :=
  match s with
  | EmptyString => [EmptyString]
  | String c rest =>
      if Ascii.eqb c sep then EmptyString :: split_on sep rest
      else match split_on sep rest with
           | [] => [String c EmptyString]
           | piece :: pieces => String c piece :: pieces
           end
  end.

Definition nonempty (s : string) : bool := negb (String.eqb s "").

(** Modelled from the spec: the path segments of the truncate:n strategy,
    the non-empty pieces between separators. *)
Definition segments (p : string) : list string :=
  List.filter nonempty (split_on "/" p).

(** Modelled from the spec: the truncate:n strategy of
    [endpoint.fn_by_type], which is not among the sources. The path is
    split on the separator, at most the first [n] non-empty segments are
    kept and rejoined with a leading separator; a path with at most [n]
    segments is returned unchanged. *)
Definition truncate (n : nat) (p : string) : string :=
  if Nat.leb (length (segments p)) n then p
  else String.append "/" (String.concat "/" (take n (segments p))).

(** Modelled from the spec: [endpoint.fn_by_type], which is not among the
    sources. Full mode returns the request path, truncate mode the
    truncated path, custom mode the supplied function; custom mode
    without a function is a configuration error at setup time. *)
Definition fn_by_type (endpoint_type : EndpointType)
    (get_endpoint_fn : option (Request -> string)) : M (Request -> string) :=
  match endpoint_type with
  | url => ret (fun r => path r)
  | url_n n => ret (fun r => truncate n (path r))
  | custom =>
      match get_endpoint_fn with
      | Some fn => ret fn
      | None => raise (SanicPrometheusError "endpoint_type is custom but no get_endpoint_fn is given")
      end
  end.

End endpoint.

Module metrics.

(** Modelled from the spec: a metric definition (key in
    [app.ctx.metrics], name, kind, label names). *)
Record MetricDef := {
  d_key : string;
  d_name : string;
  d_kind : MetricKind;
  d_labelnames : list string
}.

(** Modelled from the spec: the default instrument set of [metrics.init]:
    a request-duration histogram labelled by endpoint and method, and a
    request-count counter labelled by endpoint, method and status
    class. *)
Definition default_metrics (base_metrics : BaseMetricsT) : list MetricDef :=
  [ {| d_key := latency_key; d_name := RQS_LATENCY base_metrics;
       d_kind := Histogram; d_labelnames := ["endpoint"; "method"] |};
    {| d_key := count_key; d_name := RQS_COUNT base_metrics;
       d_kind := Counter; d_labelnames := ["endpoint"; "method"; "status"] |} ].

(** Modelled from the spec: the instrument that [metrics.init] makes for
    a definition; the bucket boundaries apply to histograms and the
    aggregation mode to gauges. *)
Definition new_instrument (latency_buckets : option (list Z))
    (multiprocess_mode : string) (d : MetricDef) : Instrument :=
  {| i_name := d_name d; i_kind := d_kind d; i_labelnames := d_labelnames d;
     i_buckets := match d_kind d with Histogram => latency_buckets | _ => None end;
     i_multiprocess_mode := match d_kind d with Gauge => multiprocess_mode | _ => "" end;
     i_samples := [] |}.

(** Modelled from the spec: the duplicate-registration test of
    [metrics.init]: is a metric of this name registered with the default
    registry? *)
Definition registered (name : string) (w : World) : bool :=
  existsb
    (fun c =>
       match c with
       | instrument_collector ref =>
           match instruments w !! ref with
           | Some i => String.eqb (i_name i) name
           | None => false
           end
       | _ => false
       end)
    (REGISTRY w).

(** Modelled from the spec: one metric of [metrics.init]. A key already
    present in [app.ctx.metrics] (a pre-built object was supplied) is
    left alone; a name already registered with the process otherwise is
    a duplicate-registration error; else the instrument is created,
    registered with the default registry and stored under its key. *)
Definition create (latency_buckets : option (list Z))
    (multiprocess_mode : string) (d : MetricDef) : M unit :=
  known <- gets (fun w => ctx_metrics w !! d_key d) ;;
  match known with
  | Some _ => ret tt
  | None =>
      dup <- gets (registered (d_name d)) ;;
      if dup : bool
      then raise (ValueError "Duplicated timeseries in CollectorRegistry")
      else
        ref <- gets (fun w => fresh (dom (instruments w))) ;;
        modify (fun w =>
          set_instruments
            (<[ref := new_instrument latency_buckets multiprocess_mode d]> (instruments w)) w) ;;
        modify (fun w => set_REGISTRY (REGISTRY w ++ [instrument_collector ref]) w) ;;
        ctx_metrics_setitem (d_key d) ref
  end.

(** Modelled from the spec: [metrics.init], which is not among the
    sources. It instantiates the metrics of [metrics_list], or the
    default set when no list is given. *)
Definition init (latency_buckets : option (list Z)) (multiprocess_mode : string)
    (metrics_list : option (list MetricDef)) (base_metrics : BaseMetricsT) : M unit :=
  for_each (create latency_buckets multiprocess_mode)
           (default (default_metrics base_metrics) metrics_list).

End metrics.

Module handlers.

(** Modelled from the spec: the status class that the after-hook maps a
    response status to: 2xx, 4xx, 5xx, ... *)
Definition status_class (st : Z) : string :=
  String (ascii_of_nat (48 + Z.to_nat (st / 100))) "xx".

(** Modelled from the spec: an update by the after-hook of the metric
    stored under the key [name] in [app.ctx.metrics], with the given label
    values. An update that cannot be made (no such metric, wrong number
    of label values) is dropped: instrumentation errors never reach the
    request. *)
Definition record (name : string) (values : list string) (amount : Z) : M unit :=
  modify (fun w =>
    match ctx_metrics w !! name with
    | None => w
    | Some ref =>
        match instruments w !! ref with
        | None => w
        | Some i =>
            match prometheus_client.labels i values with
            | None => w
            | Some ls =>
                set_instruments
                  (<[ref := add_sample {| s_labels := ls; s_value := amount |} i]>
                     (instruments w)) w
            end
        end
    end).

(** Modelled from the spec: [handlers.before_request_handler], which is
    not among the sources. It records the start timestamp in the
    request's context. *)
Definition before_request_handler (request : Request) : M Request :=
  now <- gets clock ;;
  ret (set_ctx (Some {| rc_start := now; rc_path := path request;
                        rc_method := method request |}) request).

(** Modelled from the spec: [handlers.after_request_endpoint_handler],
    which is not among the sources. It computes the elapsed duration,
    resolves the endpoint label, maps the response status to its class
    and updates the duration histogram and the count counter; the
    context is consumed. Without a context it does nothing. *)
Definition after_request_endpoint_handler (request : Request)
    (response : Response) (get_endpoint_fn : Request -> string) : M Request :=
  match ctx request with
  | None => ret request
  | Some c =>
      now <- gets clock ;;
      let lat := (now - rc_start c)%Z in
      let endpoint := get_endpoint_fn request in
      record latency_key [endpoint; method request] lat ;;
      record count_key
             [endpoint; method request; status_class (status response)] 1%Z ;;
      ret (set_ctx None request)
  end.

End handlers.

(** ** prometheus_sanic.base *)

Module base.

Import prometheus_client.

(** [class MonitorSetup]. The field [_app] is a reference to the
    application that [monitor] was given; the application is passed
    explicitly to the one method that uses it. *)
Record MonitorSetup := {
  _multiprocess_on : bool;
  _metrics_path : string
}.

(** The keyword arguments of [monitor]. [init_metrics_object] is a dict of
    the caller, an object of [dict_objects]. *)
Record MonitorArgs := {
  endpoint_type : endpoint.EndpointType;
  get_endpoint_fn : option (Request -> string);
  latency_buckets : option (list Z);
  multiprocess_mode : string;
  metrics_path : string;
  is_middleware : PyObj;
  metrics_list : option (list metrics.MetricDef);
  before_handler : option (Request -> M Request);
  after_handler : option (Request -> Response -> (Request -> string) -> M Request);
  base_metrics : option BaseMetricsT;
  init_metrics_object : option nat
}.

Definition default_args : MonitorArgs :=
  {| endpoint_type := endpoint.url_n 1;
     get_endpoint_fn := None;
     latency_buckets := None;
     multiprocess_mode := "all";
     metrics_path := "/metrics";
     is_middleware := PyBool true;
     metrics_list := None;
     before_handler := None;
     after_handler := None;
     base_metrics := None;
     init_metrics_object := None |}.

Definition with_multiprocess_mode (mode : string) (a : MonitorArgs) : MonitorArgs :=
  {| endpoint_type := endpoint_type a;
     get_endpoint_fn := get_endpoint_fn a;
     latency_buckets := latency_buckets a;
     multiprocess_mode := mode;
     metrics_path := metrics_path a;
     is_middleware := is_middleware a;
     metrics_list := metrics_list a;
     before_handler := before_handler a;
     after_handler := after_handler a;
     base_metrics := base_metrics a;
     init_metrics_object := init_metrics_object a |}.

Section Base.
Variable lib : ClientLibrary.
Variable BaseMetrics : BaseMetricsT.

(** [MonitorSetup.start_server] *)
Definition start_server (self : MonitorSetup) (addr : string) (port : Z) : M unit :=
  if _multiprocess_on self
  then raise (SanicPrometheusError
                "start_server can not be used when multiprocessing is turned on")
  else start_http_server addr port.

(** [MonitorSetup._get_metrics_data]. In the multiprocess branch the
    local name [registry] holds the only reference to the registry
    made by the call, so the object goes away when the call returns. *)
Definition _get_metrics_data (self : MonitorSetup) : M string :=
  if negb (_multiprocess_on self)
  then
    data <- generate_latest lib core_REGISTRY ;;
    ret data
  else
    registry <- CollectorRegistry ;;
    MultiProcessCollector registry ;;
    data <- generate_latest lib (registry_object registry) ;;
    del registry ;;
    ret data.

(** The handler [expose_metrics] defined in [expose_endpoint]. *)
Definition expose_metrics (self : MonitorSetup) (request : Request) : M Response :=
  data <- _get_metrics_data self ;;
  ret (sanic.raw data (CONTENT_TYPE_LATEST lib)).

(** [MonitorSetup.expose_endpoint] *)
Definition expose_endpoint (self : MonitorSetup) (app : sanic.App) : sanic.App :=
  sanic.route (_metrics_path self) ["GET"] (expose_metrics self) app.

(** The listener [before_start] defined in [monitor]. [app.ctx.metrics]
    is first a new empty dict; then, when an initial object was given, it
    is that object itself, not a copy of it. *)
Definition before_start (init_metrics_object : option nat)
    (latency_buckets : option (list Z)) (multiprocess_mode : string)
    (metrics_list : option (list metrics.MetricDef))
    (base_metrics : BaseMetricsT) : M unit :=
  modify (fun w => set_ctx_metrics ∅ (set_ctx_metrics_obj None w)) ;;
  match init_metrics_object with
  | Some obj =>
      modify (fun w =>
        set_ctx_metrics (default ∅ (dict_objects w !! obj))
          (set_ctx_metrics_obj (Some obj) w))
  | None => ret tt
  end ;;
  metrics.init latency_buckets multiprocess_mode metrics_list base_metrics.

(** The request middleware [before_request] defined in [monitor]. The
    call of the hook is noted in [calls], a record that the properties
    read and the program does not. *)
Definition before_request (metrics_path : string)
    (before_handler : Request -> M Request) (request : Request) : M Request :=
  if negb (String.eqb (path request) metrics_path)
     && negb (String.eqb (method request) "OPTIONS")
  then
    log_call (before_handler_called (path request) (method request)) ;;
    before_handler request
  else ret request.

(** The response middleware [before_response] defined in [monitor], with
    the call of the hook noted likewise. *)
Definition before_response (metrics_path : string)
    (after_handler : Request -> Response -> (Request -> string) -> M Request)
    (get_endpoint : Request -> string)
    (request : Request) (response : Response) : M Request :=
  if negb (String.eqb (path request) metrics_path)
     && negb (String.eqb (method request) "OPTIONS")
  then
    log_call (after_handler_called (path request) (method request) (status response)) ;;
    after_handler request response get_endpoint
  else ret request.

(** The listener [after_stop] defined in [monitor]. *)
Definition after_stop : M unit :=
  p <- gets pid ;;
  mark_process_dead p.

Definition in_environ (name : string) (w : World) : bool :=
  match environ w !! name with
  | Some _ => true
  | None => false
  end.

(** [monitor(app, ...)]. It returns the application with its new
    registrations and the [MonitorSetup] object. *)
Definition monitor (app : sanic.App) (a : MonitorArgs)
  : M (sanic.App * MonitorSetup) :=
  multiprocess_on <- gets (in_environ "prometheus_multiproc_dir") ;;
  get_endpoint <- endpoint.fn_by_type (endpoint_type a) (get_endpoint_fn a) ;;
  let base_metrics := default BaseMetrics (base_metrics a) in
  let before_handler :=
    default (handlers.before_request_handler) (before_handler a) in
  let after_handler :=
    default handlers.after_request_endpoint_handler (after_handler a) in
  let app :=
    sanic.listener "before_server_start"
      (before_start (init_metrics_object a) (latency_buckets a)
         (multiprocess_mode a) (metrics_list a) base_metrics) app in
  let app :=
    if is_True (is_middleware a)
    then
      sanic.middleware_response
        (before_response (metrics_path a) after_handler get_endpoint)
        (sanic.middleware_request
           (before_request (metrics_path a) before_handler) app)
    else app in
  let app :=
    if multiprocess_on : bool
    then sanic.listener "after_server_stop" after_stop app
    else app in
  ret (app, {| _multiprocess_on := multiprocess_on;
               _metrics_path := metrics_path a |}).

End Base.

End base.


(** * Vocabulary of the properties *)

Section Vocabulary.
Variable lib : ClientLibrary.
Variable BaseMetrics : BaseMetricsT.
Import base.

(** The text a scrape returns in state [w]. *)
Definition scrape_text (self : MonitorSetup) (w : World) : string :=
  if _multiprocess_on self
  then text_of_multiproc lib (multiproc_dir w)
  else String.concat "" (map (prometheus_client.collect_text lib w) (REGISTRY w)).

(** The hook calls among the calls observed so far. *)
Definition hook_calls (w : World) : list Call :=
  List.filter is_hook_call (calls w).

(** The samples recorded so far for the metric stored under [name]. *)
Definition samples_of (name : string) (w : World) : list Sample :=
  match ctx_metrics w !! name with
  | Some ref =>
      match instruments w !! ref with
      | Some i => i_samples i
      | None => []
      end
  | None => []
  end.


(** A route handler that the instrumentation can be observed around: it
    leaves the metric objects and the call log alone. *)
Definition neutral (h : Request -> M Response) : Prop :=
  forall r w,
    ctx_metrics (final_world (h r w)) = ctx_metrics w /\
    instruments (final_world (h r w)) = instruments w /\
    calls (final_world (h r w)) = calls w.

(** A route handler that completes: it returns a response. *)
Definition completes (h : Request -> M Response) : Prop :=
  forall r w, exists resp w', h r w = Returned resp w'.

(** The two request metrics are in [app.ctx.metrics] under their keys, as
    distinct objects that declare two and three labels. *)
Definition metrics_ready (w : World) : Prop :=
  exists rl rc il ic,
    ctx_metrics w !! latency_key = Some rl /\
    ctx_metrics w !! count_key = Some rc /\
    rl <> rc /\
    instruments w !! rl = Some il /\
    instruments w !! rc = Some ic /\
    length (i_labelnames il) = 2 /\
    length (i_labelnames ic) = 3.

(** The listeners of a server event. *)
Definition on_event (event : string) (l : string * M unit) : bool :=
  String.eqb (fst l) event.

(** Does the separator occur in a piece of a path? *)
Fixpoint has_sep (s : string) : bool :=
  match s with
  | EmptyString => false
  | String c rest => Ascii.eqb c "/" || has_sep rest
  end.

(** A path in canonical form: one leading separator, single separators
    between the segments, no trailing separator. *)
Definition canonical (p : string) : Prop :=
  p = String.append "/" (String.concat "/" (endpoint.segments p)).

(** A collector registered by other code of the process. *)
Definition not_an_instrument (c : Collector) : Prop :=
  match c with
  | instrument_collector _ => False
  | _ => True
  end.

(** A request that the instrumentation policy excludes. *)
Definition excluded (metrics_path : string) (r : Request) : Prop :=
  path r = metrics_path \/ method r = "OPTIONS".

End Vocabulary.

(** ** A concrete process, for the examples *)

Definition demo_lib : ClientLibrary :=
  {| CONTENT_TYPE_LATEST := "text/plain; version=0.0.4; charset=utf-8";
     text_of_instrument := fun i => String.append (i_name i) " ";
     text_of_multiproc := fun _ => "shards ";
     text_of_foreign := fun name stats =>
       String.append name
         (match stats !! name with Some 0%Z | None => " " | Some _ => "* " end) |}.

Definition demo_metrics : BaseMetricsT :=
  {| RQS_LATENCY := "sanic_request_latency_sec";
     RQS_COUNT := "sanic_request_count" |}.

Definition demo_world : World :=
  {| environ := ∅; pid := 4242; clock := 100;
     ctx_metrics := ∅; instruments := ∅;
     REGISTRY := [foreign_collector "process"]; registries := ∅;
     multiproc_dir := ∅; marked_dead := []; http_servers := [];
     calls := []; bind_error := fun _ _ _ => None; process_stats := ∅;
     dict_objects := ∅; ctx_metrics_obj := None |}.

Definition demo_world_mp : World :=
  {| environ := {[ "prometheus_multiproc_dir" := "/tmp/shards" ]};
     pid := 4242; clock := 100;
     ctx_metrics := ∅; instruments := ∅;
     REGISTRY := [foreign_collector "process"]; registries := ∅;
     multiproc_dir := ∅; marked_dead := []; http_servers := [];
     calls := []; bind_error := fun _ _ _ => None; process_stats := ∅;
     dict_objects := ∅; ctx_metrics_obj := None |}.

Definition demo_request : Request :=
  {| path := "/users/42/orders"; method := "GET"; ctx := None |}.

Definition demo_scrape : Request :=
  {| path := "/metrics"; method := "GET"; ctx := None |}.

Definition demo_setup (mp : bool) : base.MonitorSetup :=
  {| base._multiprocess_on := mp; base._metrics_path := "/metrics" |}.

(** A route of the application itself: it takes seven clock ticks. *)
Definition demo_handler (r : Request) : M Response :=
  modify (fun w => set_clock (clock w + 7) w) ;;
  ret (sanic.raw "orders" "text/plain").

Definition demo_app : sanic.App :=
  sanic.route "/users/42/orders" ["GET"] demo_handler sanic.empty_app.

(** [monitor(app, ...)] on that application. *)
Definition demo_monitor (a : base.MonitorArgs) (w0 : World)
  : sanic.App * base.MonitorSetup :=
  match base.monitor demo_metrics demo_app a w0 with
  | Returned x _ => x
  | Raised _ _ => (sanic.empty_app, demo_setup false)
  end.

(** The same application with the exposition route added. *)
Definition demo_served (a : base.MonitorArgs) (w0 : World) : sanic.App :=
  base.expose_endpoint demo_lib (snd (demo_monitor a w0)) (fst (demo_monitor a w0)).

(** The process once the server has started. *)
Definition demo_started (w0 : World) : World :=
  final_world
    (sanic.trigger "before_server_start" (fst (demo_monitor base.default_args w0)) w0).

Definition demo_args_no_middleware (o : PyObj) : base.MonitorArgs :=
  {| base.endpoint_type := endpoint.url_n 1;
     base.get_endpoint_fn := None;
     base.latency_buckets := None;
     base.multiprocess_mode := "all";
     base.metrics_path := "/metrics";
     base.is_middleware := o;
     base.metrics_list := None;
     base.before_handler := None;
     base.after_handler := None;
     base.base_metrics := None;
     base.init_metrics_object := None |}.

(** * Vocabulary of the further properties *)

(** The server handles the requests of a list one after the other. *)
Fixpoint serve (app : sanic.App) (rs : list Request) : M (list Response) :=
  match rs with
  | [] => ret []
  | r :: rest =>
      resp <- sanic.handle_request app r ;;
      resps <- serve app rest ;;
      ret (resp :: resps)
  end.

(** The test that both middleware of [monitor] make on a request. *)
Definition included (metrics_path : string) (r : Request) : bool :=
  negb (String.eqb (path r) metrics_path)
  && negb (String.eqb (method r) "OPTIONS").

Definition is_before_call (c : Call) : bool :=
  match c with
  | before_handler_called _ _ => true
  | _ => false
  end.

Definition is_after_call (c : Call) : bool :=
  match c with
  | after_handler_called _ _ _ => true
  | _ => false
  end.

Definition is_dispatch_call (c : Call) : bool :=
  match c with
  | route_dispatched _ _ => true
  | _ => false
  end.

(** How many of the calls observed so far are of one kind. *)
Definition count_calls (kind : Call -> bool) (w : World) : nat :=
  length (List.filter kind (calls w)).

(** A before-hook that leaves the path and the method of a request as they
    are. *)
Definition keeps_route (bh : Request -> M Request) : Prop :=
  forall r w r' w',
    bh r w = Returned r' w' -> path r' = path r /\ method r' = method r.

(** Hooks and handlers that return, leave the path and the method of the
    request as they are and do not write to the call log. *)
Definition quiet_before (bh : Request -> M Request) : Prop :=
  forall r w,
    exists r' w',
      bh r w = Returned r' w' /\
      path r' = path r /\ method r' = method r /\ calls w' = calls w.

Definition quiet_after
    (ah : Request -> Response -> (Request -> string) -> M Request) : Prop :=
  forall r resp ge w,
    exists r' w',
      ah r resp ge w = Returned r' w' /\
      path r' = path r /\ method r' = method r /\ calls w' = calls w.

Definition quiet_handler (h : Request -> M Response) : Prop :=
  forall r w, exists resp w', h r w = Returned resp w' /\ calls w' = calls w.

(** The arguments of [monitor] that only the start listener receives. *)
Definition with_start_arguments
    (buckets : option (list Z)) (mode : string)
    (mlist : option (list metrics.MetricDef))
    (bm : option BaseMetricsT) (obj : option nat)
    (a : base.MonitorArgs) : base.MonitorArgs :=
  {| base.endpoint_type := base.endpoint_type a;
     base.get_endpoint_fn := base.get_endpoint_fn a;
     base.latency_buckets := buckets;
     base.multiprocess_mode := mode;
     base.metrics_path := base.metrics_path a;
     base.is_middleware := base.is_middleware a;
     base.metrics_list := mlist;
     base.before_handler := base.before_handler a;
     base.after_handler := base.after_handler a;
     base.base_metrics := bm;
     base.init_metrics_object := obj |}.

(** A process whose environment has the variable, with an empty value. *)
Definition demo_world_empty_var : World :=
  {| environ := {[ "prometheus_multiproc_dir" := "" ]};
     pid := 4242; clock := 100;
     ctx_metrics := ∅; instruments := ∅;
     REGISTRY := [foreign_collector "process"]; registries := ∅;
     multiproc_dir := ∅; marked_dead := []; http_servers := [];
     calls := []; bind_error := fun _ _ _ => None; process_stats := ∅;
     dict_objects := ∅; ctx_metrics_obj := None |}.

(** Hooks of a caller: the before-hook moves the clock, the after-hook
    does nothing. *)
Definition demo_before (r : Request) : M Request :=
  modify (fun w => set_clock (clock w + 1) w) ;;
  ret r.

Definition demo_after (r : Request) (resp : Response)
    (get_endpoint : Request -> string) : M Request :=
  ret r.

Definition demo_args_custom_hooks : base.MonitorArgs :=
  {| base.endpoint_type := endpoint.url;
     base.get_endpoint_fn := None;
     base.latency_buckets := None;
     base.multiprocess_mode := "all";
     base.metrics_path := "/metrics";
     base.is_middleware := PyBool true;
     base.metrics_list := None;
     base.before_handler := Some demo_before;
     base.after_handler := Some demo_after;
     base.base_metrics := None;
     base.init_metrics_object := None |}.

(** [monitor] called a second time on the application it returned. *)
Definition demo_monitor_twice (a : base.MonitorArgs) (w0 : World)
  : sanic.App * base.MonitorSetup :=
  match base.monitor demo_metrics (fst (demo_monitor a w0)) a w0 with
  | Returned x _ => x
  | Raised _ _ => (sanic.empty_app, demo_setup false)
  end.

(** What [metrics.init] keeps true of the dictionary while it stores
    metrics: [app.ctx.metrics] stays the object it is, the caller's dict
    it is bound to holds the same entries, and the other dicts are as they were. *)
Definition bound_to (obj : option nat) (others : gmap nat (gmap string nat))
    (w : World) : Prop :=
  ctx_metrics_obj w = obj /\
  (forall id, obj = Some id -> dict_objects w !! id = Some (ctx_metrics w)) /\
  (forall id, obj <> Some id -> dict_objects w !! id = others !! id).

(** A process in which the caller holds a dict, object 5, with one entry,
    and arguments that pass it as the initial metrics object. *)
Definition demo_world_with_dict : World :=
  set_dict_objects {[ 5 := {[ "custom" := 9 ]} ]} demo_world.

Definition demo_args_init_object : base.MonitorArgs :=
  with_start_arguments None "all" None None (Some 5) base.default_args.

(** A request to the metrics path written with a trailing separator. *)
Definition demo_scrape_slash : Request :=
  {| path := "/metrics/"; method := "GET"; ctx := None |}.



Definition demo_args_no_metrics : base.MonitorArgs :=
  with_start_arguments None "all" (Some []) None None base.default_args.

(** The process once the server has started, for given arguments. *)
Definition demo_started_with (a : base.MonitorArgs) (w0 : World) : World :=
  final_world
    (sanic.trigger "before_server_start" (fst (demo_monitor a w0)) w0).


(** * Properties *)

(** ** The monad, the state record and strings *)

Lemma keys_differ : latency_key <> count_key.
Proof. discriminate. Qed.

Lemma bind_ret_r {A} (m : M A) (w : World) :
  (x <- m ;; ret x) w = m w.
Proof. unfold bind, ret. destruct (m w); reflexivity. Qed.

Lemma string_append_assoc (a b c : string) :
  String.append (String.append a b) c = String.append a (String.append b c).
Proof.
  induction a as [|x a IH]; [reflexivity | exact (f_equal (String x) IH)].
Qed.

Lemma string_append_empty_r (a : string) : String.append a "" = a.
Proof.
  induction a as [|x a IH]; [reflexivity | exact (f_equal (String x) IH)].
Qed.

(** A text that is part of a concatenation occurs in it. *)
Lemma concat_contains (x : string) (xs : list string) :
  In x xs ->
  exists pre post,
    String.concat "" xs = String.append pre (String.append x post).
Proof.
  induction xs as [|y ys IH]; intros Hin; [destruct Hin |].
  destruct Hin as [-> | Hin].
  - exists "". destruct ys as [|z zs].
    + exists "". simpl. now rewrite string_append_empty_r.
    + exists (String.concat "" (z :: zs)). reflexivity.
  - destruct (IH Hin) as (pre & post & E).
    destruct ys as [|z zs]; [destruct Hin |].
    exists (String.append y pre), post.
    change (String.concat "" (y :: z :: zs))
      with (String.append y (String.concat "" (z :: zs))).
    rewrite E. symmetry. apply string_append_assoc.
Qed.

(** ** Scraping: [MonitorSetup._get_metrics_data] *)

Section Scrape.
Variable lib : ClientLibrary.
Import base prometheus_client.

(** A scrape returns [scrape_text] and leaves the process state as it
    found it. *)
Lemma get_metrics_data_eq (self : MonitorSetup) (w : World) :
  _get_metrics_data lib self w = Returned (scrape_text lib self w) w.
Proof.
  unfold _get_metrics_data, scrape_text.
  destruct (_multiprocess_on self); simpl; [| reflexivity].
  unfold bind, CollectorRegistry, MultiProcessCollector, generate_latest,
    del, modify, gets, ret; simpl.
  rewrite alter_insert_eq, lookup_insert_eq, delete_insert_id; simpl.
  - f_equal. destruct w; reflexivity.
  - apply not_elem_of_dom, is_fresh.
Qed.

(** What a scrape returns is the serialization of a registry: of a new
    registry that holds the multiprocess collector only, or of
    [core.REGISTRY]. *)
Lemma scrape_is_generate_latest (self : MonitorSetup) (w : World) :
  if _multiprocess_on self
  then
    exists id w1,
      registries w !! id = None /\
      (registry <- CollectorRegistry ;;
       MultiProcessCollector registry ;;
       ret registry) w = Returned id w1 /\
      registries w1 = <[id := [multiprocess_collector]]> (registries w) /\
      generate_latest lib (registry_object id) w1
        = Returned (scrape_text lib self w) w1
  else
    generate_latest lib core_REGISTRY w = Returned (scrape_text lib self w) w.
Proof.
  unfold scrape_text. destruct (_multiprocess_on self); [| reflexivity].
  exists (fresh (dom (registries w))). eexists.
  split; [apply not_elem_of_dom, is_fresh |].
  split; [reflexivity |].
  split; [simpl; now rewrite alter_insert_eq |].
  unfold generate_latest, gets; simpl.
  now rewrite alter_insert_eq, lookup_insert_eq.
Qed.


(** C10. In single-process mode a scrape is the serialization of
    [core.REGISTRY]: the text of every collector registered there occurs
    in it, whoever registered it, and the application's own dictionary
    of metrics has no part in it. In multiprocess mode the content of
    [core.REGISTRY] has no influence on the scrape. *)
Theorem scrape_serializes_global_registry (self : MonitorSetup) (w : World) :
  if _multiprocess_on self
  then
    forall R : list Collector,
      exists data,
        _get_metrics_data lib self w = Returned data w /\
        _get_metrics_data lib self (set_REGISTRY R w)
          = Returned data (set_REGISTRY R w)
  else
    exists data,
      _get_metrics_data lib self w = Returned data w /\
      generate_latest lib core_REGISTRY w = Returned data w /\
      (forall c, In c (REGISTRY w) ->
         exists pre post,
           data = String.append pre (String.append (collect_text lib w c) post)) /\
      (forall m : gmap string nat,
         _get_metrics_data lib self (set_ctx_metrics m w)
           = Returned data (set_ctx_metrics m w)).
Proof.
  destruct (_multiprocess_on self) eqn:Hmp.
  - intros R. exists (text_of_multiproc lib (multiproc_dir w)).
    rewrite !get_metrics_data_eq. unfold scrape_text. rewrite Hmp.
    split; reflexivity.
  - exists (scrape_text lib self w).
    split; [apply get_metrics_data_eq |].
    unfold scrape_text. rewrite Hmp.
    split; [reflexivity |].
    split.
    + intros c Hc. apply concat_contains, in_map, Hc.
    + intros m. rewrite get_metrics_data_eq. unfold scrape_text.
      now rewrite Hmp.
Qed.

Lemma bind_failure_not_config addr port w e :
  bind_failure addr port w = Some e ->
  forall msg, e <> SanicPrometheusError msg.
Proof.
  unfold bind_failure.
  destruct (negb _); [inversion 1; discriminate |].
  destruct (bind_error w (http_servers w) addr port); inversion 1; discriminate.
Qed.

Lemma start_http_server_state addr port w e w' :
  start_http_server addr port w = Raised e w' -> w' = w.
Proof.
  unfold start_http_server.
  destruct (bind_failure addr port w); now inversion 1.
Qed.

(** C3, as amended. [start_server] raises the configuration error exactly
    when multiprocess mode is on, and then in the state it was called in,
    with no listener bound. When the mode is off it is
    [start_http_server]: it returns with the standalone listener bound
    exactly when the bind succeeds, and it passes the error of the bind
    on otherwise. Whatever it raises, the state is unchanged. *)
Theorem start_server_raises_config_error_iff_multiprocess
    (self : MonitorSetup) (addr : string) (port : Z) (w : World) :
  ((exists msg w', start_server self addr port w
                   = Raised (SanicPrometheusError msg) w')
     <-> _multiprocess_on self = true) /\
  (_multiprocess_on self = true ->
   start_server self addr port w
   = Raised (SanicPrometheusError
               "start_server can not be used when multiprocessing is turned on") w) /\
  (_multiprocess_on self = false ->
   start_server self addr port w = start_http_server addr port w) /\
  ((_multiprocess_on self = false /\ bind_failure addr port w = None)
     <-> start_server self addr port w
         = Returned tt (set_http_servers (http_servers w ++ [(addr, port)]) w)) /\
  (forall e w', start_server self addr port w = Raised e w' ->
     w' = w /\ http_servers w' = http_servers w).
Proof.
  unfold start_server.
  destruct (_multiprocess_on self); unfold raise.
  - split; [split; eauto |]. split; [reflexivity |].
    split; [discriminate |].
    split; [split; [intros [H _] | intros H]; discriminate H |].
    intros e w' H. now inversion H.
  - split.
    { split; [| discriminate]. intros (msg & w' & H). exfalso.
      unfold start_http_server in H.
      destruct (bind_failure addr port w) as [e |] eqn:Hb; [| discriminate H].
      inversion H; subst.
      exact (bind_failure_not_config _ _ _ _ Hb msg eq_refl). }
    split; [discriminate |]. split; [reflexivity |].
    split.
    { unfold start_http_server. split.
      - intros [_ Hb]. now rewrite Hb.
      - destruct (bind_failure addr port w); [discriminate | auto]. }
    intros e w' H. apply start_http_server_state in H. now subst.
Qed.
End Scrape.

(** ** What [monitor] registers *)

Section Monitor.
Variable lib : ClientLibrary.
Variable BaseMetrics : BaseMetricsT.
Import base sanic prometheus_client.

Lemma fn_by_type_pure t f w g w' :
  endpoint.fn_by_type t f w = Returned g w' -> w' = w.
Proof.
  destruct t; simpl; unfold ret; try (now inversion 1).
  destruct f; unfold ret, raise; now inversion 1.
Qed.

(** The registrations made by a call of [monitor] that returns. *)
Lemma monitor_registers app a w app' setup w' :
  monitor BaseMetrics app a w = Returned (app', setup) w' ->
  w' = w /\
  setup = {| _multiprocess_on := in_environ "prometheus_multiproc_dir" w;
             _metrics_path := metrics_path a |} /\
  exists get_endpoint,
    endpoint.fn_by_type (endpoint_type a) (get_endpoint_fn a) w
      = Returned get_endpoint w /\
    routes app' = routes app /\
    request_middleware app' =
      request_middleware app ++
      (if is_True (is_middleware a)
       then [before_request (metrics_path a)
               (default handlers.before_request_handler (before_handler a))]
       else []) /\
    response_middleware app' =
      response_middleware app ++
      (if is_True (is_middleware a)
       then [before_response (metrics_path a)
               (default handlers.after_request_endpoint_handler
                  (after_handler a))
               get_endpoint]
       else []) /\
    listeners app' =
      listeners app ++
      [("before_server_start",
        before_start (init_metrics_object a) (latency_buckets a)
          (multiprocess_mode a) (metrics_list a)
          (default BaseMetrics (base_metrics a)))] ++
      (if in_environ "prometheus_multiproc_dir" w
       then [("after_server_stop", after_stop)]
       else []).
Proof.
  unfold monitor, bind, gets. 
  destruct (endpoint.fn_by_type (endpoint_type a) (get_endpoint_fn a) w)
    as [ge w1 | e w1] eqn:Hfn; [| discriminate].
  pose proof (fn_by_type_pure _ _ _ _ _ Hfn) as ->.
  unfold ret. intros H. inversion H; subst; clear H.
  split; [reflexivity |]. split; [reflexivity |].
  exists ge. split; [reflexivity |].
  destruct (is_True (is_middleware a)),
    (in_environ "prometheus_multiproc_dir" _); simpl;
    rewrite ?app_nil_r, <- ?app_assoc; repeat split; reflexivity.
Qed.

(** [monitor] fails only with the configuration error of the endpoint
    resolver, and independently of [multiprocess_mode]. *)
Lemma monitor_outcome_mode app a mode w :
  match monitor BaseMetrics app a w,
        monitor BaseMetrics app (with_multiprocess_mode mode a) w with
  | Returned _ _, Returned _ _ => True
  | Raised e1 w1, Raised e2 w2 => e1 = e2 /\ w1 = w2
  | _, _ => False
  end.
Proof.
  unfold monitor, bind, gets; simpl.
  destruct (endpoint.fn_by_type (endpoint_type a) (get_endpoint_fn a) w);
    simpl; auto.
Qed.

(** The middleware of [monitor] lets an excluded request through
    untouched, whatever the hooks are. *)
Lemma before_request_excluded P bh r w :
  excluded P r -> before_request P bh r w = Returned r w.
Proof.
  unfold before_request. intros [H | H].
  - apply String.eqb_eq in H. now rewrite H.
  - apply String.eqb_eq in H. now rewrite H, andb_false_r.
Qed.

Lemma before_response_excluded P ah ge r resp w :
  excluded P r -> before_response P ah ge r resp w = Returned r w.
Proof.
  unfold before_response. intros [H | H].
  - apply String.eqb_eq in H. now rewrite H.
  - apply String.eqb_eq in H. now rewrite H, andb_false_r.
Qed.

(** Without middleware a request is dispatched and nothing else. *)
Lemma handle_request_plain app r w :
  request_middleware app = [] ->
  response_middleware app = [] ->
  handle_request app r w = dispatch app r w.
Proof.
  intros Hq Hp. unfold handle_request. rewrite Hq, Hp. simpl.
  unfold bind at 1. unfold ret at 1.
  unfold bind, ret. destruct (dispatch app r w); reflexivity.
Qed.

(** With the middleware of [monitor] an excluded request is dispatched
    and nothing else. *)
Lemma handle_request_excluded app P bh ah ge r w :
  request_middleware app = [before_request P bh] ->
  response_middleware app = [before_response P ah ge] ->
  excluded P r ->
  handle_request app r w = dispatch app r w.
Proof.
  intros Hq Hp Hex. unfold handle_request. rewrite Hq, Hp. simpl.
  unfold bind at 1. unfold bind at 1.
  rewrite before_request_excluded by exact Hex.
  unfold ret at 1. unfold bind.
  destruct (dispatch app r w) as [resp w1 | e w1]; [| reflexivity].
  rewrite before_response_excluded by exact Hex. reflexivity.
Qed.

Lemma find_route_app_None rs rt p :
  find_route rs p = None ->
  find_route (rs ++ [rt]) p = if same_route (r_path rt) p then Some rt else None.
Proof.
  induction rs as [|x rs IH]; simpl; [reflexivity |].
  destruct (same_route (r_path x) p); [discriminate | exact IH].
Qed.

Lemma scrape_text_set_calls self cs w :
  scrape_text lib self (set_calls cs w) = scrape_text lib self w.
Proof. reflexivity. Qed.

(** A GET of the metrics path, dispatched to [expose_metrics]. *)
Lemma dispatch_scrape app self r w :
  find_route (routes app) (path r)
    = Some {| r_path := path r; r_methods := ["GET"];
              r_handler := expose_metrics lib self |} ->
  method r = "GET" ->
  dispatch app r w =
    Returned (raw (scrape_text lib self w) (CONTENT_TYPE_LATEST lib))
             (set_calls (calls w ++ [route_dispatched (path r) "GET"]) w).
Proof.
  intros Hroute Hm. unfold dispatch. rewrite Hroute, Hm. simpl.
  unfold bind, log_call, modify, expose_metrics, bind, ret.
  rewrite get_metrics_data_eq. reflexivity.
Qed.

End Monitor.

(** ** Setup-time properties of [monitor] *)

Section Setup.
Variable lib : ClientLibrary.
Variable BaseMetrics : BaseMetricsT.
Import base sanic prometheus_client.

Lemma trigger_after_stop (mp : bool) (ls : list (string * M unit)) bs (w : World) :
  List.filter (on_event "after_server_stop") ls = [] ->
  for_each snd
    (List.filter (on_event "after_server_stop")
       (ls ++ [("before_server_start", bs)] ++
        (if mp then [("after_server_stop", after_stop)] else [])))
    w
  = Returned tt (if mp then set_marked_dead (marked_dead w ++ [pid w]) w else w).
Proof.
  intros Hls. rewrite List.filter_app, Hls. destruct mp; reflexivity.
Qed.

(** C7. The shutdown listener is registered exactly when multiprocess
    mode is active: when the server stops, the worker marks its own
    process identifier dead in that mode, and nothing happens in
    single-process mode. *)
Theorem shutdown_hook_iff_multiprocess app a w0 app' setup w0' :
  monitor BaseMetrics app a w0 = Returned (app', setup) w0' ->
  List.filter (on_event "after_server_stop") (listeners app) = [] ->
  _multiprocess_on setup = in_environ "prometheus_multiproc_dir" w0 /\
  List.filter (on_event "after_server_stop") (listeners app')
    = (if _multiprocess_on setup then [("after_server_stop", after_stop)] else []) /\
  forall w,
    trigger "after_server_stop" app' w
    = Returned tt (if _multiprocess_on setup
                   then set_marked_dead (marked_dead w ++ [pid w]) w
                   else w).
Proof.
  intros Hmon Hls.
  destruct (monitor_registers _ _ _ _ _ _ _ Hmon)
    as (_ & -> & ge & _ & _ & _ & _ & Hl).
  simpl. split; [reflexivity |]. split.
  - rewrite Hl, List.filter_app, Hls.
    destruct (in_environ "prometheus_multiproc_dir" w0); reflexivity.
  - intros w. unfold trigger. rewrite Hl.
    apply (trigger_after_stop _ _ _ _ Hls).
Qed.

(** C8. The process is in multiprocess mode exactly when the environment
    variable is present when [monitor] is called. Two calls that differ
    only in [multiprocess_mode] fail together or return together, and
    then with the same setup object, the same scrapes, the same outcome
    of [start_server], the same routes and middleware and the same
    shutdown listeners. *)
Theorem multiprocess_mode_argument_is_inert app a mode w0 :
  match monitor BaseMetrics app a w0,
        monitor BaseMetrics app (with_multiprocess_mode mode a) w0 with
  | Returned (app1, s1) _, Returned (app2, s2) _ =>
      _multiprocess_on s1 = in_environ "prometheus_multiproc_dir" w0 /\
      s1 = s2 /\
      (forall w, _get_metrics_data lib s1 w = _get_metrics_data lib s2 w) /\
      (forall addr port w, start_server s1 addr port w = start_server s2 addr port w) /\
      routes app1 = routes app2 /\
      request_middleware app1 = request_middleware app2 /\
      response_middleware app1 = response_middleware app2 /\
      List.filter (on_event "after_server_stop") (listeners app1)
        = List.filter (on_event "after_server_stop") (listeners app2) /\
      (forall w, trigger "after_server_stop" app1 w = trigger "after_server_stop" app2 w)
  | Raised e1 w1, Raised e2 w2 => e1 = e2 /\ w1 = w2
  | _, _ => False
  end.
Proof.
  pose proof (monitor_outcome_mode BaseMetrics app a mode w0) as Hout.
  destruct (monitor BaseMetrics app a w0) as [[app1 s1] w1 | e1 w1] eqn:H1;
    destruct (monitor BaseMetrics app (with_multiprocess_mode mode a) w0)
      as [[app2 s2] w2 | e2 w2] eqn:H2; try exact Hout.
  destruct (monitor_registers _ _ _ _ _ _ _ H1)
    as (_ & -> & ge1 & Hge1 & Hr1 & Hq1 & Hp1 & Hl1).
  destruct (monitor_registers _ _ _ _ _ _ _ H2)
    as (_ & -> & ge2 & Hge2 & Hr2 & Hq2 & Hp2 & Hl2).
  simpl in Hge2, Hr2, Hq2, Hp2, Hl2.
  rewrite Hge1 in Hge2. inversion Hge2; subst ge2.
  assert (Hf : List.filter (on_event "after_server_stop") (listeners app1)
               = List.filter (on_event "after_server_stop") (listeners app2)).
  { rewrite Hl1, Hl2, !List.filter_app. reflexivity. }
  simpl. repeat split; try reflexivity; try congruence.
  intros w. unfold trigger. 
  change (fun l : string * M unit => String.eqb (fst l) "after_server_stop")
    with (on_event "after_server_stop").
  now rewrite Hf.
Qed.

(** C9. When [is_middleware] is anything but [True], [monitor] registers
    no middleware: every request is dispatched and nothing else, while
    the exposition route still serves the registry and [start_server]
    behaves as usual: the configuration error in multiprocess mode, the
    bind of the standalone listener otherwise. *)
Theorem no_middleware_unless_True app a w0 app' setup w0' :
  monitor BaseMetrics app a w0 = Returned (app', setup) w0' ->
  is_True (is_middleware a) = false ->
  request_middleware app = [] ->
  response_middleware app = [] ->
  find_route (routes app) (metrics_path a) = None ->
  request_middleware app' = [] /\
  response_middleware app' = [] /\
  (forall r w, handle_request app' r w = dispatch app' r w) /\
  (forall r w,
     handle_request (expose_endpoint lib setup app') r w
     = dispatch (expose_endpoint lib setup app') r w) /\
  (forall r w,
     path r = metrics_path a -> method r = "GET" ->
     handle_request (expose_endpoint lib setup app') r w
     = Returned (raw (scrape_text lib setup w) (CONTENT_TYPE_LATEST lib))
                (set_calls (calls w ++ [route_dispatched (path r) "GET"]) w)) /\
  (forall addr port w,
     start_server setup addr port w
     = if in_environ "prometheus_multiproc_dir" w0
       then Raised (SanicPrometheusError
                      "start_server can not be used when multiprocessing is turned on") w
       else match bind_failure addr port w with
            | Some e => Raised e w
            | None =>
                Returned tt (set_http_servers (http_servers w ++ [(addr, port)]) w)
            end).
Proof.
  intros Hmon Hoff Hq Hp Hfree.
  destruct (monitor_registers _ _ _ _ _ _ _ Hmon)
    as (_ & -> & ge & _ & Hr' & Hq' & Hp' & _).
  rewrite Hoff, Hq in Hq'. rewrite Hoff, Hp in Hp'. simpl in Hq', Hp'.
  split; [exact Hq' |]. split; [exact Hp' |].
  split; [intros; now apply handle_request_plain |].
  split; [intros; now apply handle_request_plain |].
  split.
  - intros r w Hpath Hget.
    rewrite handle_request_plain by assumption.
    apply dispatch_scrape; [| exact Hget].
    simpl. rewrite Hr', find_route_app_None by (rewrite Hpath; exact Hfree).
    simpl. unfold same_route. now rewrite Hpath, String.eqb_refl.
  - intros addr port w. unfold start_server. simpl.
    destruct (in_environ "prometheus_multiproc_dir" w0); reflexivity.
Qed.

(** C5. The route that [expose_endpoint] adds is registered for GET
    only. A GET of the metrics path is answered with status 200, the
    content type of the text format and, as body, the serialization by
    [generate_latest] of the registry: of the aggregate registry made for
    the scrape in multiprocess mode, of [core.REGISTRY] otherwise, which
    is the text of its collectors. A request of another method to that
    path does not reach the handler. *)
Theorem exposed_endpoint_serves_exposition app a w0 app' setup w0' r w :
  monitor BaseMetrics app a w0 = Returned (app', setup) w0' ->
  request_middleware app = [] ->
  response_middleware app = [] ->
  find_route (routes app) (metrics_path a) = None ->
  path r = metrics_path a ->
  routes (expose_endpoint lib setup app')
    = routes app ++ [{| r_path := metrics_path a; r_methods := ["GET"];
                        r_handler := expose_metrics lib setup |}] /\
  (method r = "GET" ->
   exists data,
     (if _multiprocess_on setup
      then
        data = text_of_multiproc lib (multiproc_dir w) /\
        exists id w1,
          registries w !! id = None /\
          (registry <- CollectorRegistry ;;
           MultiProcessCollector registry ;;
           ret registry) w = Returned id w1 /\
          registries w1 = <[id := [multiprocess_collector]]> (registries w) /\
          generate_latest lib (registry_object id) w1 = Returned data w1
      else
        data = String.concat "" (map (collect_text lib w) (REGISTRY w)) /\
        generate_latest lib core_REGISTRY w = Returned data w) /\
     _get_metrics_data lib setup w = Returned data w /\
     handle_request (expose_endpoint lib setup app') r w
     = Returned {| status := 200; body := data;
                   content_type := CONTENT_TYPE_LATEST lib |}
                (set_calls (calls w ++ [route_dispatched (path r) "GET"]) w)) /\
  (method r <> "GET" ->
   handle_request (expose_endpoint lib setup app') r w
   = Returned method_not_allowed
              (set_calls (calls w ++ [route_dispatched (path r) (method r)]) w)).
Proof.
  intros Hmon Hq Hp Hfree Hpath.
  destruct (monitor_registers _ _ _ _ _ _ _ Hmon)
    as (_ & -> & ge & _ & Hr' & Hq' & Hp' & _).
  rewrite Hq in Hq'. rewrite Hp in Hp'. simpl in Hq', Hp'.
  set (self := {| _multiprocess_on := in_environ "prometheus_multiproc_dir" w0;
                  _metrics_path := metrics_path a |}) in *.
  assert (Hroutes : routes (expose_endpoint lib self app')
            = routes app ++ [{| r_path := metrics_path a; r_methods := ["GET"];
                                r_handler := expose_metrics lib self |}]).
  { simpl. now rewrite Hr'. }
  assert (Hfind : find_route (routes (expose_endpoint lib self app')) (path r)
            = Some {| r_path := path r; r_methods := ["GET"];
                      r_handler := expose_metrics lib self |}).
  { rewrite Hroutes, find_route_app_None by (rewrite Hpath; exact Hfree).
    simpl. unfold same_route. now rewrite Hpath, String.eqb_refl. }
  assert (Hhandle : handle_request (expose_endpoint lib self app') r w
            = dispatch (expose_endpoint lib self app') r w).
  { destruct (is_True (is_middleware a)).
    - eapply handle_request_excluded; [exact Hq' | exact Hp' |].
      left. exact Hpath.
    - now apply handle_request_plain. }
  split; [exact Hroutes |]. split.
  - intros Hget. exists (scrape_text lib self w).
    split.
    { pose proof (scrape_is_generate_latest lib self w) as Hgen.
      unfold scrape_text in *.
      destruct (_multiprocess_on self); split; [reflexivity | exact Hgen
                                                | reflexivity | exact Hgen]. }
    split; [apply get_metrics_data_eq |].
    rewrite Hhandle. now apply dispatch_scrape.
  - intros Hother. rewrite Hhandle. unfold dispatch. rewrite Hfind. simpl.
    apply String.eqb_neq in Hother. rewrite Hother. reflexivity.
Qed.

End Setup.

(** ** Request-time properties of the middleware *)

Section Requests.
Variable lib : ClientLibrary.
Variable BaseMetrics : BaseMetricsT.
Import base sanic prometheus_client.

Lemma find_route_In rs p rt : find_route rs p = Some rt -> In rt rs.
Proof.
  induction rs as [|x rs IH]; simpl; [discriminate |].
  destruct (same_route (r_path x) p).
  - inversion 1. now left.
  - intros H. right. now apply IH.
Qed.

Lemma expose_metrics_neutral self : neutral (expose_metrics lib self).
Proof.
  intros r w. unfold expose_metrics, bind.
  rewrite get_metrics_data_eq. simpl. auto.
Qed.

Lemma expose_metrics_completes self : completes (expose_metrics lib self).
Proof.
  intros r w. unfold expose_metrics, bind.
  rewrite get_metrics_data_eq. unfold ret. eauto.
Qed.

(** The routes of the application, with or without the exposition
    route. *)
Lemma served_routes_Forall (P : (Request -> M Response) -> Prop)
    (exposed : bool) self app app' :
  routes app' = routes app ->
  P (expose_metrics lib self) ->
  Forall (fun rt => P (r_handler rt)) (routes app) ->
  Forall (fun rt => P (r_handler rt))
    (routes (if exposed then expose_endpoint lib self app' else app')).
Proof.
  intros Hr Hm Hall. destruct exposed; simpl; rewrite Hr; [| exact Hall].
  apply Forall_app. split; [exact Hall |]. constructor; [exact Hm | constructor].
Qed.

(** Dispatching to neutral handlers changes neither the metric objects
    nor the hook calls. *)
Lemma dispatch_neutral app r w :
  Forall (fun rt => neutral (r_handler rt)) (routes app) ->
  ctx_metrics (final_world (dispatch app r w)) = ctx_metrics w /\
  instruments (final_world (dispatch app r w)) = instruments w /\
  hook_calls (final_world (dispatch app r w)) = hook_calls w.
Proof.
  intros Hall. unfold dispatch, bind, log_call, modify.
  set (w1 := set_calls (calls w ++ [route_dispatched (path r) (method r)]) w).
  assert (Hw1 : hook_calls w1 = hook_calls w).
  { unfold hook_calls, w1. simpl. rewrite List.filter_app. simpl.
    apply app_nil_r. }
  destruct (find_route (routes app) (path r)) as [rt |] eqn:Hfind;
    [| simpl; auto].
  destruct (existsb (String.eqb (method r)) (r_methods rt)); [| simpl; auto].
  rewrite List.Forall_forall in Hall.
  destruct (Hall rt (find_route_In _ _ _ Hfind) r w1) as (Hc & Hi & Hl).
  rewrite Hc, Hi. unfold hook_calls in *. rewrite Hl.
  repeat split; [exact Hw1].
Qed.

(** Dispatching to neutral handlers that complete returns a response. *)
Lemma dispatch_completes app r w :
  Forall (fun rt => neutral (r_handler rt) /\ completes (r_handler rt)) (routes app) ->
  exists resp w',
    dispatch app r w = Returned resp w' /\
    ctx_metrics w' = ctx_metrics w /\
    instruments w' = instruments w /\
    calls w' = calls w ++ [route_dispatched (path r) (method r)].
Proof.
  intros Hall. unfold dispatch, bind, log_call, modify.
  set (w1 := set_calls (calls w ++ [route_dispatched (path r) (method r)]) w).
  destruct (find_route (routes app) (path r)) as [rt |] eqn:Hfind;
    [| unfold ret; eauto 8].
  destruct (existsb (String.eqb (method r)) (r_methods rt));
    [| unfold ret; eauto 8].
  rewrite List.Forall_forall in Hall.
  destruct (Hall rt (find_route_In _ _ _ Hfind)) as (Hn & Hc).
  destruct (Hc r w1) as (resp & w' & Hret).
  destruct (Hn r w1) as (H1 & H2 & H3).
  rewrite Hret in H1, H2, H3 |- *. simpl in H1, H2, H3.
  exists resp, w'. repeat split; assumption.
Qed.


(** C2. A request to the metrics path, of any method, and an OPTIONS
    request, to any path, reach neither hook, whatever hooks are
    configured and whether or not the middleware is enabled: the request
    is dispatched and nothing else, no hook call is observed and the
    metric objects are as before. *)
Theorem excluded_request_not_instrumented
    app a w0 app' setup w0' (exposed : bool) r w :
  monitor BaseMetrics app a w0 = Returned (app', setup) w0' ->
  request_middleware app = [] ->
  response_middleware app = [] ->
  Forall (fun rt => neutral (r_handler rt)) (routes app) ->
  excluded (metrics_path a) r ->
  let served := if exposed then expose_endpoint lib setup app' else app' in
  handle_request served r w = dispatch served r w /\
  hook_calls (final_world (handle_request served r w)) = hook_calls w /\
  ctx_metrics (final_world (handle_request served r w)) = ctx_metrics w /\
  instruments (final_world (handle_request served r w)) = instruments w.
Proof.
  intros Hmon Hq Hp Hall Hex served.
  destruct (monitor_registers _ _ _ _ _ _ _ Hmon)
    as (_ & _ & ge & _ & Hr' & Hq' & Hp' & _).
  rewrite Hq in Hq'. rewrite Hp in Hp'. simpl in Hq', Hp'.
  assert (Hhandle : handle_request served r w = dispatch served r w).
  { destruct (is_True (is_middleware a)).
    - eapply handle_request_excluded; [| | exact Hex];
        unfold served; destruct exposed; simpl; eassumption.
    - apply handle_request_plain; unfold served; destruct exposed; simpl;
        assumption. }
  split; [exact Hhandle |]. rewrite Hhandle.
  assert (Hserved : Forall (fun rt => neutral (r_handler rt)) (routes served)).
  { apply (served_routes_Forall neutral exposed setup app app' Hr');
      auto using expose_metrics_neutral. }
  destruct (dispatch_neutral served r w Hserved) as (Hc & Hi & Hh).
  auto.
Qed.

End Requests.

(** ** An included request is recorded once *)

Section Recorded.
Variable lib : ClientLibrary.
Variable BaseMetrics : BaseMetricsT.
Import base sanic prometheus_client.










End Recorded.

(** ** The truncating endpoint resolver *)

Section Truncate.
Import endpoint.

Lemma split_on_cons (s : string) :
  exists piece pieces, split_on "/" s = piece :: pieces.
Proof.
  destruct s as [|c s]; simpl; [eauto |].
  destruct (Ascii.eqb c "/"); [eauto |].
  destruct (split_on "/" s); eauto.
Qed.

Lemma split_on_pieces (s : string) :
  Forall (fun piece => has_sep piece = false) (split_on "/" s).
Proof.
  induction s as [|c s IH]; simpl; [repeat constructor |].
  destruct (Ascii.eqb c "/") eqn:Hc; [constructor; [reflexivity | exact IH] |].
  destruct (split_on "/" s) as [|piece pieces]; [repeat constructor; simpl; now rewrite Hc |].
  inversion IH; subst. constructor; [| assumption].
  simpl. now rewrite Hc.
Qed.

Lemma split_on_append (a b : string) :
  has_sep a = false ->
  split_on "/" (String.append a (String "/" b)) = a :: split_on "/" b.
Proof.
  induction a as [|c a IH]; intros Ha.
  - reflexivity.
  - simpl in Ha. apply orb_false_iff in Ha as [Hc Ha].
    change (String.append (String c a) (String "/" b))
      with (String c (String.append a (String "/" b))).
    simpl. rewrite Hc, (IH Ha). reflexivity.
Qed.

Lemma split_on_whole (a : string) :
  has_sep a = false -> split_on "/" a = [a].
Proof.
  induction a as [|c a IH]; intros Ha; [reflexivity |].
  simpl in Ha. apply orb_false_iff in Ha as [Hc Ha].
  simpl. now rewrite Hc, (IH Ha).
Qed.

(** Splitting undoes joining. *)
Lemma split_on_concat (l : list string) :
  Forall (fun piece => has_sep piece = false) l ->
  l <> [] ->
  split_on "/" (String.concat "/" l) = l.
Proof.
  induction l as [|x l IH]; intros Hall Hne; [congruence |].
  inversion Hall as [|? ? Hx Hl]; subst.
  destruct l as [|y l].
  - simpl. now apply split_on_whole.
  - change (String.concat "/" (x :: y :: l))
      with (String.append x (String "/" (String.concat "/" (y :: l)))).
    rewrite split_on_append by exact Hx.
    now rewrite IH.
Qed.

Lemma segments_pieces (p : string) :
  Forall (fun piece => has_sep piece = false /\ nonempty piece = true) (segments p).
Proof.
  unfold segments. pose proof (split_on_pieces p) as H.
  induction H as [|x l Hx Hl IH]; simpl; [constructor |].
  destruct (nonempty x) eqn:Hn; [constructor; auto | exact IH].
Qed.

Lemma filter_all {A} (f : A -> bool) (l : list A) :
  Forall (fun x => f x = true) l -> List.filter f l = l.
Proof.
  induction 1 as [|x l Hx Hl IH]; simpl; [reflexivity |].
  now rewrite Hx, IH.
Qed.

(** The segments of a rejoined list of segments are that list. *)
Lemma segments_rejoined (l : list string) :
  Forall (fun piece => has_sep piece = false /\ nonempty piece = true) l ->
  segments (String.append "/" (String.concat "/" l)) = l.
Proof.
  intros Hall. unfold segments.
  change (String.append "/" (String.concat "/" l))
    with (String "/" (String.concat "/" l)).
  simpl split_on. simpl List.filter.
  destruct l as [|x l]; [reflexivity |].
  rewrite split_on_concat.
  - apply filter_all. eapply Forall_impl; [exact Hall |]. now intros ? [_ ?].
  - eapply Forall_impl; [exact Hall |]. now intros ? [? _].
  - discriminate.
Qed.

Lemma segments_truncate (n : nat) (p : string) :
  segments (truncate n p) = take n (segments p).
Proof.
  unfold truncate. destruct (Nat.leb (length (segments p)) n) eqn:Hle.
  - apply Nat.leb_le in Hle. symmetry. now apply take_ge.
  - apply segments_rejoined, Forall_take, segments_pieces.
Qed.

(** A path that is long, or short and canonical, has the rejoined first
    [n] segments as its label. *)
Lemma truncate_rejoins (n : nat) (p : string) :
  (length (segments p) <= n -> canonical p) ->
  truncate n p = String.append "/" (String.concat "/" (take n (segments p))).
Proof.
  intros Hcan. unfold truncate.
  destruct (Nat.leb (length (segments p)) n) eqn:Hle; [| reflexivity].
  apply Nat.leb_le in Hle. rewrite (take_ge _ _ Hle). exact (Hcan Hle).
Qed.

(** C6, as amended. The resolver of truncate mode maps a request to the
    truncated path. Its label has the first [n] segments of the path as
    its segments, hence at most [n]; a path of at most [n] segments is its
    own label; and two paths that agree on their first [n] segments have
    the same label, provided that each of the two that has at most [n]
    segments is in canonical form. *)
Theorem truncate_bounded_and_prefix_consistent (n : nat) (p q : string) :
  (forall fn w,
     fn_by_type (url_n n) fn w = Returned (fun r => truncate n (path r)) w) /\
  segments (truncate n p) = take n (segments p) /\
  length (segments (truncate n p)) <= n /\
  (length (segments p) <= n -> truncate n p = p) /\
  (take n (segments p) = take n (segments q) ->
   (length (segments p) <= n -> canonical p) ->
   (length (segments q) <= n -> canonical q) ->
   truncate n p = truncate n q).
Proof.
  split; [reflexivity |].
  split; [apply segments_truncate |].
  split; [rewrite segments_truncate, length_take; lia |].
  split.
  - intros Hle. unfold truncate. apply Nat.leb_le in Hle. now rewrite Hle.
  - intros Heq Hp Hq.
    now rewrite (truncate_rejoins n p Hp), (truncate_rejoins n q Hq), Heq.
Qed.

(** The proviso of the amended C6 cannot be dropped for any short path: a
    path of at most [n] segments that is not canonical differs in label
    from the canonical path of the same segments. *)
Lemma short_path_needs_canonical (n : nat) (p : string) :
  length (segments p) <= n ->
  ~ canonical p ->
  exists q,
    take n (segments p) = take n (segments q) /\
    canonical q /\
    truncate n p <> truncate n q.
Proof.
  intros Hle Hnot.
  exists (String.append "/" (String.concat "/" (segments p))).
  assert (Hseg : segments (String.append "/" (String.concat "/" (segments p)))
                 = segments p)
    by apply segments_rejoined, segments_pieces.
  split; [now rewrite Hseg |].
  split; [unfold canonical; now rewrite Hseg |].
  unfold truncate. rewrite Hseg.
  apply Nat.leb_le in Hle. rewrite Hle. exact Hnot.
Qed.

(** C6, as stated, fails: [/a] and [/a/] have the same single segment,
    each is returned unchanged for [n = 1], and the labels differ. *)
Lemma truncate_not_prefix_consistent :
  ~ (forall (n : nat) (p q : string),
       1 <= n ->
       length (segments (truncate n p)) <= n /\
       (length (segments p) <= n -> truncate n p = p) /\
       (take n (segments p) = take n (segments q) ->
        truncate n p = truncate n q)).
Proof.
  intros H. destruct (H 1 "/a" "/a/" (le_n 1)) as (_ & _ & Hprefix).
  specialize (Hprefix eq_refl). discriminate Hprefix.
Qed.

(** No resolver at all returns short paths unchanged and is
    prefix-consistent on them. *)
Lemma unchanged_excludes_prefix_consistent (f : nat -> string -> string) :
  (forall n p, length (segments p) <= n -> f n p = p) ->
  ~ (forall (n : nat) (p q : string),
       1 <= n ->
       take n (segments p) = take n (segments q) ->
       f n p = f n q).
Proof.
  intros Hsame Hprefix.
  specialize (Hprefix 1 "/a" "/a/" (le_n 1) eq_refl).
  rewrite (Hsame 1 "/a"), (Hsame 1 "/a/") in Hprefix by (simpl; lia).
  discriminate Hprefix.
Qed.

(** The scenario of the spec: [/users/42/orders] under truncate:1, and
    the path [/users] that it shares its label with. *)
Example truncate_users :
  truncate 1 "/users/42/orders" = "/users" /\
  truncate 1 "/users" = truncate 1 "/users/42/orders" /\
  canonical "/users".
Proof. repeat split. Qed.

End Truncate.

(** ** Server start makes the request metrics ready *)

Section ServerStart.
Variable BaseMetrics : BaseMetricsT.
Import base.

(** A metric that is new to the dictionary and to the registry is
    created, registered and stored under its key. *)
Lemma create_new lb mode d w :
  ctx_metrics w !! metrics.d_key d = None ->
  metrics.registered (metrics.d_name d) w = false ->
  exists w',
    metrics.create lb mode d w = Returned tt w' /\
    ctx_metrics w'
      = <[metrics.d_key d := fresh (dom (instruments w))]> (ctx_metrics w) /\
    instruments w'
      = <[fresh (dom (instruments w)) := metrics.new_instrument lb mode d]>
          (instruments w) /\
    REGISTRY w' = REGISTRY w ++ [instrument_collector (fresh (dom (instruments w)))].
Proof.
  intros Hnew Hreg. unfold metrics.create, bind, gets, modify, ctx_metrics_setitem.
  rewrite Hnew, Hreg. unfold modify. simpl.
  eexists. split; [reflexivity |].
  destruct (ctx_metrics_obj w); simpl; auto.
Qed.

Lemma existsb_foreign (ins : gmap nat Instrument) (name : string) cs :
  Forall not_an_instrument cs ->
  existsb
    (fun c =>
       match c with
       | instrument_collector ref =>
           match ins !! ref with
           | Some i => String.eqb (i_name i) name
           | None => false
           end
       | _ => false
       end) cs = false.
Proof.
  induction 1 as [|c cs Hc Hcs IH]; simpl; [reflexivity |].
  rewrite IH. destruct c; simpl in *; tauto.
Qed.

(** In a process where no instrument is registered yet, the start
    listener with the default metric list creates the two request
    metrics, under whatever names [base_metrics] gives them. *)
Lemma server_start_makes_metrics_ready (bm : BaseMetricsT) lb mode w :
  RQS_LATENCY bm <> RQS_COUNT bm ->
  Forall not_an_instrument (REGISTRY w) ->
  exists w',
    before_start None lb mode None bm w = Returned tt w' /\
    metrics_ready w'.
Proof.
  intros Hnames Hreg.
  unfold before_start, metrics.init, metrics.default_metrics. simpl.
  unfold bind at 1. unfold modify at 1.
  unfold bind at 1. unfold ret at 1.
  unfold bind at 1.
  set (w1 := set_ctx_metrics ∅ (set_ctx_metrics_obj None w)).
  destruct (create_new lb mode
              {| metrics.d_key := latency_key; metrics.d_name := RQS_LATENCY bm;
                 metrics.d_kind := Histogram;
                 metrics.d_labelnames := ["endpoint"; "method"] |} w1)
    as (w2 & Hrun2 & Hc2 & Hi2 & HR2).
  { apply lookup_empty. }
  { apply existsb_foreign, Hreg. }
  rewrite Hrun2. unfold bind at 1.
  simpl in Hc2, Hi2, HR2.
  set (r1 := fresh (dom (instruments w))) in *.
  destruct (create_new lb mode
              {| metrics.d_key := count_key; metrics.d_name := RQS_COUNT bm;
                 metrics.d_kind := Counter;
                 metrics.d_labelnames := ["endpoint"; "method"; "status"] |} w2)
    as (w3 & Hrun3 & Hc3 & Hi3 & HR3).
  { simpl. rewrite Hc2. rewrite lookup_insert_ne by exact keys_differ.
    apply lookup_empty. }
  { unfold metrics.registered. simpl. rewrite HR2, Hi2.
    rewrite existsb_app, (existsb_foreign _ _ _ Hreg). simpl.
    rewrite lookup_insert_eq. simpl.
    rewrite orb_false_r. now apply String.eqb_neq. }
  rewrite Hrun3. unfold ret.
  exists w3. split; [reflexivity |].
  simpl in Hc3, Hi3.
  assert (Hfresh : fresh (dom (instruments w2)) <> r1).
  { intros E. pose proof (is_fresh (dom (instruments w2))) as Hf.
    rewrite E, Hi2, dom_insert_L in Hf. set_solver. }
  set (r2 := fresh (dom (instruments w2))) in *.
  rewrite Hi2 in Hi3. rewrite Hc2 in Hc3.
  exists r1, r2. eexists _, _. rewrite Hc3, Hi3.
  split; [rewrite lookup_insert_ne by (intros E; now apply keys_differ);
          apply lookup_insert_eq |].
  split; [apply lookup_insert_eq |].
  split; [intros E; apply Hfresh; exact (eq_sym E) |].
  split; [rewrite lookup_insert_ne by exact Hfresh; apply lookup_insert_eq |].
  split; [apply lookup_insert_eq |].
  split; reflexivity.
Qed.

End ServerStart.

(** ** The properties at work on a concrete process *)

Section Examples.
Import base sanic prometheus_client.

Lemma shutdown_hook_iff_multiprocess_witness :
  _multiprocess_on (snd (demo_monitor default_args demo_world_mp))
    = in_environ "prometheus_multiproc_dir" demo_world_mp /\
  List.filter (on_event "after_server_stop")
    (listeners (fst (demo_monitor default_args demo_world_mp)))
    = (if _multiprocess_on (snd (demo_monitor default_args demo_world_mp))
       then [("after_server_stop", after_stop)] else []) /\
  forall w,
    trigger "after_server_stop" (fst (demo_monitor default_args demo_world_mp)) w
    = Returned tt (if _multiprocess_on (snd (demo_monitor default_args demo_world_mp))
                   then set_marked_dead (marked_dead w ++ [pid w]) w
                   else w).
Proof.
  apply (shutdown_hook_iff_multiprocess demo_metrics demo_app default_args
           demo_world_mp _ _ demo_world_mp); reflexivity.
Defined.

Lemma excluded_request_not_instrumented_witness :
  handle_request (demo_served default_args demo_world) demo_scrape
    (demo_started demo_world)
  = dispatch (demo_served default_args demo_world) demo_scrape
      (demo_started demo_world) /\
  hook_calls (final_world (handle_request (demo_served default_args demo_world)
                             demo_scrape (demo_started demo_world)))
  = hook_calls (demo_started demo_world) /\
  ctx_metrics (final_world (handle_request (demo_served default_args demo_world)
                              demo_scrape (demo_started demo_world)))
  = ctx_metrics (demo_started demo_world) /\
  instruments (final_world (handle_request (demo_served default_args demo_world)
                              demo_scrape (demo_started demo_world)))
  = instruments (demo_started demo_world).
Proof.
  apply (excluded_request_not_instrumented demo_lib demo_metrics demo_app
           default_args demo_world
           (fst (demo_monitor default_args demo_world))
           (snd (demo_monitor default_args demo_world))
           demo_world true demo_scrape (demo_started demo_world)).
  - reflexivity.
  - reflexivity.
  - reflexivity.
  - constructor; [| constructor]. intros r w. simpl. auto.
  - left. reflexivity.
Defined.

Lemma exposed_endpoint_serves_exposition_witness :
  routes (demo_served default_args demo_world_mp)
    = routes demo_app ++ [{| r_path := "/metrics"; r_methods := ["GET"];
                             r_handler := expose_metrics demo_lib
                               (snd (demo_monitor default_args demo_world_mp)) |}] /\
  (method demo_scrape = "GET" ->
   exists data,
     (if _multiprocess_on (snd (demo_monitor default_args demo_world_mp))
      then
        data = text_of_multiproc demo_lib (multiproc_dir (demo_started demo_world_mp)) /\
        exists id w1,
          registries (demo_started demo_world_mp) !! id = None /\
          (registry <- CollectorRegistry ;;
           MultiProcessCollector registry ;;
           ret registry) (demo_started demo_world_mp) = Returned id w1 /\
          registries w1
            = <[id := [multiprocess_collector]]> (registries (demo_started demo_world_mp)) /\
          generate_latest demo_lib (registry_object id) w1 = Returned data w1
      else
        data = String.concat ""
                 (map (collect_text demo_lib (demo_started demo_world_mp))
                      (REGISTRY (demo_started demo_world_mp))) /\
        generate_latest demo_lib core_REGISTRY (demo_started demo_world_mp)
          = Returned data (demo_started demo_world_mp)) /\
     _get_metrics_data demo_lib (snd (demo_monitor default_args demo_world_mp))
       (demo_started demo_world_mp)
     = Returned data (demo_started demo_world_mp) /\
     handle_request (demo_served default_args demo_world_mp) demo_scrape
       (demo_started demo_world_mp)
     = Returned {| status := 200; body := data;
                   content_type := CONTENT_TYPE_LATEST demo_lib |}
                (set_calls (calls (demo_started demo_world_mp)
                            ++ [route_dispatched (path demo_scrape) "GET"])
                   (demo_started demo_world_mp))) /\
  (method demo_scrape <> "GET" ->
   handle_request (demo_served default_args demo_world_mp) demo_scrape
     (demo_started demo_world_mp)
   = Returned method_not_allowed
       (set_calls (calls (demo_started demo_world_mp)
                   ++ [route_dispatched (path demo_scrape) (method demo_scrape)])
          (demo_started demo_world_mp))).
Proof.
  apply (exposed_endpoint_serves_exposition demo_lib demo_metrics demo_app
           default_args demo_world_mp
           (fst (demo_monitor default_args demo_world_mp))
           (snd (demo_monitor default_args demo_world_mp))
           demo_world_mp demo_scrape (demo_started demo_world_mp));
    reflexivity.
Defined.

Lemma no_middleware_unless_True_witness :
  request_middleware (fst (demo_monitor (demo_args_no_middleware (PyInt 1)) demo_world)) = [] /\
  response_middleware (fst (demo_monitor (demo_args_no_middleware (PyInt 1)) demo_world)) = [] /\
  (forall r w,
     handle_request (fst (demo_monitor (demo_args_no_middleware (PyInt 1)) demo_world)) r w
     = dispatch (fst (demo_monitor (demo_args_no_middleware (PyInt 1)) demo_world)) r w) /\
  (forall r w,
     handle_request (demo_served (demo_args_no_middleware (PyInt 1)) demo_world) r w
     = dispatch (demo_served (demo_args_no_middleware (PyInt 1)) demo_world) r w) /\
  (forall r w,
     path r = "/metrics" -> method r = "GET" ->
     handle_request (demo_served (demo_args_no_middleware (PyInt 1)) demo_world) r w
     = Returned (raw (scrape_text demo_lib
                        (snd (demo_monitor (demo_args_no_middleware (PyInt 1)) demo_world)) w)
                     (CONTENT_TYPE_LATEST demo_lib))
                (set_calls (calls w ++ [route_dispatched (path r) "GET"]) w)) /\
  (forall addr port w,
     start_server (snd (demo_monitor (demo_args_no_middleware (PyInt 1)) demo_world))
       addr port w
     = if in_environ "prometheus_multiproc_dir" demo_world
       then Raised (SanicPrometheusError
                      "start_server can not be used when multiprocessing is turned on") w
       else match bind_failure addr port w with
            | Some e => Raised e w
            | None =>
                Returned tt (set_http_servers (http_servers w ++ [(addr, port)]) w)
            end).
Proof.
  apply (no_middleware_unless_True demo_lib demo_metrics demo_app
           (demo_args_no_middleware (PyInt 1)) demo_world
           (fst (demo_monitor (demo_args_no_middleware (PyInt 1)) demo_world))
           (snd (demo_monitor (demo_args_no_middleware (PyInt 1)) demo_world))
           demo_world); reflexivity.
Defined.


(** C3, as stated, fails: with multiprocess mode off, [start_server] on
    port 70000 raises, with the error of the bind. *)
Lemma start_server_raises_with_mode_off :
  ~ (forall (self : MonitorSetup) (addr : string) (port : Z) (w : World),
       (exists e w', start_server self addr port w = Raised e w')
       <-> _multiprocess_on self = true).
Proof.
  intros H. destruct (H (demo_setup false) "" 70000%Z demo_world) as [Hraise _].
  assert (Hoff : _multiprocess_on (demo_setup false) = true);
    [| discriminate Hoff].
  apply Hraise. eexists _, _. reflexivity.
Qed.

Example demo_start_server_bad_port :
  start_server (demo_setup false) "" 70000 demo_world
  = Raised (OverflowError "bind(): port must be 0-65535.") demo_world.
Proof. reflexivity. Qed.


(** In that configuration both hooks still run, once each, around the
    dispatch, and no metric object exists or changes. *)
Example demo_request_reduced_metric_list :
  let w := demo_started_with demo_args_no_metrics demo_world in
  let w' := final_world (handle_request (demo_served demo_args_no_metrics demo_world)
                           demo_request w) in
  calls w' = [before_handler_called "/users/42/orders" "GET";
              route_dispatched "/users/42/orders" "GET";
              after_handler_called "/users/42/orders" "GET" 200] /\
  ctx_metrics w = ∅ /\
  instruments w' = instruments w.
Proof. vm_compute. repeat split; reflexivity. Qed.

(** The scenario of the spec: one request to [/users/42/orders] under
    truncate:1 in single-process mode. *)
Example demo_request_samples :
  let w' := final_world (handle_request (demo_served default_args demo_world)
                           demo_request (demo_started demo_world)) in
  samples_of latency_key w'
    = [{| s_labels := [("endpoint", "/users"); ("method", "GET")];
          s_value := 7 |}] /\
  samples_of count_key w'
    = [{| s_labels := [("endpoint", "/users"); ("method", "GET"); ("status", "2xx")];
          s_value := 1 |}].
Proof. vm_compute. split; reflexivity. Qed.

(** A scrape in single-process mode shows the collector of the process
    and the two request metrics. *)
Example demo_scrape_single :
  _get_metrics_data demo_lib (demo_setup false) (demo_started demo_world)
  = Returned "process sanic_request_latency_sec sanic_request_count "
             (demo_started demo_world).
Proof. vm_compute. reflexivity. Qed.

(** A scrape in multiprocess mode shows the shards only. *)
Example demo_scrape_multiprocess :
  _get_metrics_data demo_lib (demo_setup true) (demo_started demo_world_mp)
  = Returned "shards " (demo_started demo_world_mp).
Proof. vm_compute. reflexivity. Qed.

Example demo_start_server_multiprocess :
  start_server (snd (demo_monitor default_args demo_world_mp)) "" 8000 demo_world_mp
  = Raised (SanicPrometheusError
              "start_server can not be used when multiprocessing is turned on")
           demo_world_mp.
Proof. reflexivity. Qed.

Example demo_start_server_single :
  http_servers
    (final_world
       (start_server (snd (demo_monitor default_args demo_world)) "" 8000 demo_world))
  = [("", 8000%Z)].
Proof. reflexivity. Qed.

(** An OPTIONS request is not recorded. *)
Example demo_options_request :
  let r := {| path := "/users/42/orders"; method := "OPTIONS"; ctx := None |} in
  let w' := final_world (handle_request (demo_served default_args demo_world)
                           r (demo_started demo_world)) in
  calls w' = [route_dispatched "/users/42/orders" "OPTIONS"] /\
  samples_of latency_key w' = [] /\
  samples_of count_key w' = [].
Proof. vm_compute. repeat split; reflexivity. Qed.

End Examples.

(** * Further properties of [monitor] and [MonitorSetup] *)

Section Further.
Variable lib : ClientLibrary.
Variable BaseMetrics : BaseMetricsT.
Import base sanic prometheus_client.

(** ** Counting calls *)

Lemma count_calls_app kind (w w' : World) (l : list Call) :
  calls w' = calls w ++ l ->
  count_calls kind w' = count_calls kind w + length (List.filter kind l).
Proof.
  intros E. unfold count_calls. rewrite E, List.filter_app. apply length_app.
Qed.

Lemma filter_repeat (kind : Call -> bool) (c : Call) (n : nat) :
  length (List.filter kind (repeat c n)) = if kind c then n else 0.
Proof.
  induction n as [|n IH]; simpl; [now destruct (kind c) |].
  destruct (kind c) eqn:E; simpl; [now rewrite IH | exact IH].
Qed.

(** ** The middleware, registered [n] times *)

Lemma included_same P r r' :
  path r' = path r -> method r' = method r -> included P r' = included P r.
Proof. intros Hp Hm. unfold included. now rewrite Hp, Hm. Qed.

Lemma before_request_unfold P bh r w :
  before_request P bh r w
  = if included P r
    then bh r (set_calls (calls w ++ [before_handler_called (path r) (method r)]) w)
    else Returned r w.
Proof. unfold before_request, included. now destruct (_ && _). Qed.

Lemma before_response_unfold P ah ge r resp w :
  before_response P ah ge r resp w
  = if included P r
    then ah r resp ge
           (set_calls
              (calls w ++ [after_handler_called (path r) (method r) (status resp)]) w)
    else Returned r w.
Proof. unfold before_response, included. now destruct (_ && _). Qed.

Lemma run_before_copies P bh n :
  quiet_before bh ->
  forall r w,
    exists r' w',
      run_request_middleware (repeat (before_request P bh) n) r w = Returned r' w' /\
      path r' = path r /\ method r' = method r /\
      calls w' = calls w ++
                 (if included P r
                  then repeat (before_handler_called (path r) (method r)) n
                  else []).
Proof.
  intros Hq. induction n as [|n IH]; intros r w.
  - exists r, w. simpl. unfold ret.
    repeat split. destruct (included P r); now rewrite app_nil_r.
  - simpl. unfold bind at 1. rewrite before_request_unfold.
    destruct (included P r) eqn:Hin.
    + destruct (Hq r (set_calls (calls w ++ [before_handler_called (path r) (method r)]) w))
        as (r1 & w1 & Hb & Hp1 & Hm1 & Hc1).
      rewrite Hb. destruct (IH r1 w1) as (r' & w' & Hrun & Hp & Hm & Hc).
      exists r', w'. split; [exact Hrun |].
      split; [congruence |]. split; [congruence |].
      rewrite Hc, Hc1, (included_same P r r1 Hp1 Hm1), Hin, Hp1, Hm1. simpl.
      now rewrite <- app_assoc.
    + destruct (IH r w) as (r' & w' & Hrun & Hp & Hm & Hc).
      exists r', w'. rewrite Hin in Hc. auto.
Qed.

Lemma run_after_copies P ah ge n resp :
  quiet_after ah ->
  forall r w,
    exists r' w',
      run_response_middleware (repeat (before_response P ah ge) n) r resp w
        = Returned r' w' /\
      path r' = path r /\ method r' = method r /\
      calls w' = calls w ++
                 (if included P r
                  then repeat (after_handler_called (path r) (method r) (status resp)) n
                  else []).
Proof.
  intros Hq. induction n as [|n IH]; intros r w.
  - exists r, w. simpl. unfold ret.
    repeat split. destruct (included P r); now rewrite app_nil_r.
  - simpl. unfold bind at 1. rewrite before_response_unfold.
    destruct (included P r) eqn:Hin.
    + destruct (Hq r resp ge
                  (set_calls
                     (calls w ++ [after_handler_called (path r) (method r) (status resp)]) w))
        as (r1 & w1 & Hb & Hp1 & Hm1 & Hc1).
      rewrite Hb. destruct (IH r1 w1) as (r' & w' & Hrun & Hp & Hm & Hc).
      exists r', w'. split; [exact Hrun |].
      split; [congruence |]. split; [congruence |].
      rewrite Hc, Hc1, (included_same P r r1 Hp1 Hm1), Hin, Hp1, Hm1. simpl.
      now rewrite <- app_assoc.
    + destruct (IH r w) as (r' & w' & Hrun & Hp & Hm & Hc).
      exists r', w'. rewrite Hin in Hc. auto.
Qed.

Lemma dispatch_quiet app r w :
  Forall (fun rt => quiet_handler (r_handler rt)) (routes app) ->
  exists resp w',
    dispatch app r w = Returned resp w' /\
    calls w' = calls w ++ [route_dispatched (path r) (method r)].
Proof.
  intros Hall. unfold dispatch, bind, log_call, modify.
  set (w1 := set_calls (calls w ++ [route_dispatched (path r) (method r)]) w).
  destruct (find_route (routes app) (path r)) as [rt |] eqn:Hfind;
    [| unfold ret; eauto].
  destruct (existsb (String.eqb (method r)) (r_methods rt));
    [| unfold ret; eauto].
  rewrite List.Forall_forall in Hall.
  destruct (Hall rt (find_route_In _ _ _ Hfind) r w1) as (resp & w' & Hret & Hc).
  exists resp, w'. split; [exact Hret | exact Hc].
Qed.

Lemma expose_metrics_quiet self : quiet_handler (expose_metrics lib self).
Proof.
  intros r w. unfold expose_metrics, bind.
  rewrite get_metrics_data_eq. unfold ret. eauto.
Qed.

(** A request through [n] copies of the middleware: every copy of the
    before-hook is called before the dispatch, every copy of the after-hook
    after it, and only for an included request. *)
Lemma handle_request_copies app P bh ah ge n r w :
  request_middleware app = repeat (before_request P bh) n ->
  response_middleware app = repeat (before_response P ah ge) n ->
  quiet_before bh ->
  quiet_after ah ->
  Forall (fun rt => quiet_handler (r_handler rt)) (routes app) ->
  exists resp w',
    handle_request app r w = Returned resp w' /\
    calls w' = calls w ++
               (if included P r
                then repeat (before_handler_called (path r) (method r)) n
                else []) ++
               [route_dispatched (path r) (method r)] ++
               (if included P r
                then repeat (after_handler_called (path r) (method r) (status resp)) n
                else []).
Proof.
  intros Hrq Hrp Hqb Hqa Hall. unfold handle_request. rewrite Hrq, Hrp.
  destruct (run_before_copies P bh n Hqb r w) as (r1 & w1 & H1 & Hp1 & Hm1 & Hc1).
  unfold bind at 1. rewrite H1.
  destruct (dispatch_quiet app r1 w1 Hall) as (resp & w2 & H2 & Hc2).
  unfold bind at 1. rewrite H2.
  destruct (run_after_copies P ah ge n resp Hqa r1 w2)
    as (r3 & w3 & H3 & Hp3 & Hm3 & Hc3).
  unfold bind at 1. rewrite H3. unfold ret.
  exists resp, w3. split; [reflexivity |].
  rewrite Hc3, Hc2, Hc1, (included_same P r r1 Hp1 Hm1), Hp1, Hm1.
  now rewrite <- !app_assoc.
Qed.


Lemma record_returns name values amount w :
  exists w',
    handlers.record name values amount w = Returned tt w' /\ calls w' = calls w.
Proof.
  unfold handlers.record, modify. eexists. split; [reflexivity |].
  destruct (ctx_metrics w !! name) as [ref |]; [| reflexivity].
  destruct (instruments w !! ref) as [i |]; [| reflexivity].
  destruct (labels i values); reflexivity.
Qed.

(** The default hooks are quiet. *)
Lemma default_before_quiet : quiet_before handlers.before_request_handler.
Proof. intros r w. eexists _, _. repeat split. Qed.

Lemma default_after_quiet :
  quiet_after handlers.after_request_endpoint_handler.
Proof.
  intros r resp ge w. unfold handlers.after_request_endpoint_handler.
  destruct (ctx r) as [c |]; [| exists r, w; unfold ret; auto].
  unfold bind at 1. unfold gets at 1.
  destruct (record_returns latency_key [ge r; method r]
              (clock w - rc_start c)%Z w) as (w1 & H1 & Hc1).
  unfold bind at 1. rewrite H1.
  destruct (record_returns count_key
              [ge r; method r; handlers.status_class (status resp)] 1%Z w1)
    as (w2 & H2 & Hc2).
  unfold bind at 1. rewrite H2. unfold ret.
  exists (set_ctx None r), w2. repeat split. congruence.
Qed.

(** The middleware that [monitor] leaves on an application that had
    none: one copy of each, or none. *)
Lemma monitor_middleware app a w app' setup w' :
  monitor BaseMetrics app a w = Returned (app', setup) w' ->
  request_middleware app = [] ->
  response_middleware app = [] ->
  exists get_endpoint,
    endpoint.fn_by_type (endpoint_type a) (get_endpoint_fn a) w
      = Returned get_endpoint w /\
    routes app' = routes app /\
    request_middleware app' =
      repeat (before_request (metrics_path a)
                (default handlers.before_request_handler (before_handler a)))
             (if is_True (is_middleware a) then 1 else 0) /\
    response_middleware app' =
      repeat (before_response (metrics_path a)
                (default handlers.after_request_endpoint_handler
                   (after_handler a))
                get_endpoint)
             (if is_True (is_middleware a) then 1 else 0).
Proof.
  intros Hmon Hq Hp.
  destruct (monitor_registers _ _ _ _ _ _ _ Hmon)
    as (_ & _ & ge & Hge & Hr' & Hq' & Hp' & _).
  exists ge. rewrite Hq in Hq'. rewrite Hp in Hp'.
  destruct (is_True (is_middleware a)); simpl in *; auto.
Qed.

Lemma handle_request_counts app P bh ah ge n r w :
  request_middleware app = repeat (before_request P bh) n ->
  response_middleware app = repeat (before_response P ah ge) n ->
  quiet_before bh ->
  quiet_after ah ->
  Forall (fun rt => quiet_handler (r_handler rt)) (routes app) ->
  exists resp w',
    handle_request app r w = Returned resp w' /\
    count_calls is_dispatch_call w' = count_calls is_dispatch_call w + 1 /\
    count_calls is_before_call w'
      = count_calls is_before_call w + (if included P r then n else 0) /\
    count_calls is_after_call w'
      = count_calls is_after_call w + (if included P r then n else 0).
Proof.
  intros Hrq Hrp Hqb Hqa Hall.
  destruct (handle_request_copies app P bh ah ge n r w Hrq Hrp Hqb Hqa Hall)
    as (resp & w' & Hrun & Hc).
  exists resp, w'. split; [exact Hrun |].
  rewrite !(count_calls_app _ _ _ _ Hc), !List.filter_app, !length_app.
  destruct (included P r); rewrite ?filter_repeat; simpl; repeat split; lia.
Qed.

Lemma serve_counts app P bh ah ge n rs :
  request_middleware app = repeat (before_request P bh) n ->
  response_middleware app = repeat (before_response P ah ge) n ->
  quiet_before bh ->
  quiet_after ah ->
  Forall (fun rt => quiet_handler (r_handler rt)) (routes app) ->
  forall w,
    exists resps w',
      serve app rs w = Returned resps w' /\
      length resps = length rs /\
      count_calls is_dispatch_call w' = count_calls is_dispatch_call w + length rs /\
      count_calls is_before_call w'
        = count_calls is_before_call w + n * length (List.filter (included P) rs) /\
      count_calls is_after_call w'
        = count_calls is_after_call w + n * length (List.filter (included P) rs).
Proof.
  intros Hrq Hrp Hqb Hqa Hall.
  induction rs as [|r rs IH]; intros w.
  - exists [], w. simpl. unfold ret. repeat split; lia.
  - destruct (handle_request_counts app P bh ah ge n r w Hrq Hrp Hqb Hqa Hall)
      as (resp & w1 & H1 & Hd1 & Hb1 & Ha1).
    destruct (IH w1) as (resps & w' & Hrun & Hlen & Hd & Hb & Ha).
    exists (resp :: resps), w'. simpl.
    unfold bind at 1. rewrite H1. unfold bind at 1. rewrite Hrun. unfold ret.
    split; [reflexivity |]. split; [now rewrite Hlen |].
    rewrite Hd, Hb, Ha, Hd1, Hb1, Ha1.
    destruct (included P r); simpl; repeat split; lia.
Qed.

(** X1. Hooks supplied by the caller take the place of the default ones:
    for an included request the supplied before-hook runs once, then the
    dispatch on the request as that hook left it, then the supplied
    after-hook once, with that request, the response of the dispatch and
    the endpoint resolver. *)
Theorem custom_hooks_wrap_dispatch app a w0 app' setup w0' bh ah r w :
  monitor BaseMetrics app a w0 = Returned (app', setup) w0' ->
  is_middleware a = PyBool true ->
  before_handler a = Some bh ->
  after_handler a = Some ah ->
  request_middleware app = [] ->
  response_middleware app = [] ->
  keeps_route bh ->
  path r <> metrics_path a ->
  method r <> "OPTIONS" ->
  exists get_endpoint,
    endpoint.fn_by_type (endpoint_type a) (get_endpoint_fn a) w0
      = Returned get_endpoint w0 /\
    handle_request app' r w =
      (log_call (before_handler_called (path r) (method r)) ;;
       r1 <- bh r ;;
       resp <- dispatch app' r1 ;;
       log_call (after_handler_called (path r) (method r) (status resp)) ;;
       ah r1 resp get_endpoint ;;
       ret resp) w.
Proof.
  intros Hmon Hmw Hbh Hah Hq Hp Hkeep Hpath Hmeth.
  destruct (monitor_middleware _ _ _ _ _ _ Hmon Hq Hp)
    as (ge & Hge & _ & Hq' & Hp').
  rewrite Hmw, Hbh in Hq'. rewrite Hmw, Hah in Hp'. simpl in Hq', Hp'.
  exists ge. split; [exact Hge |].
  assert (Hin : included (metrics_path a) r = true).
  { unfold included. apply String.eqb_neq in Hpath, Hmeth.
    now rewrite Hpath, Hmeth. }
  unfold handle_request. rewrite Hq', Hp'.
  simpl run_request_middleware. simpl run_response_middleware.
  unfold bind, ret, log_call, modify.
  rewrite before_request_unfold, Hin.
  destruct (bh r (set_calls (calls w ++ [before_handler_called (path r) (method r)]) w))
    as [r1 w1 | e w1] eqn:Hb; [| reflexivity].
  destruct (Hkeep _ _ _ _ Hb) as (Hp1 & Hm1).
  destruct (dispatch app' r1 w1) as [resp w2 | e w2]; [| reflexivity].
  rewrite before_response_unfold, (included_same _ r r1 Hp1 Hm1), Hin, Hp1, Hm1.
  destruct (ah r1 resp ge _) as [r3 w3 | e w3]; reflexivity.
Qed.

(** X2. Over any sequence of requests, every request is dispatched once,
    and the calls of the before-hook and of the after-hook each number the
    included requests of the sequence when the middleware is enabled, and
    none when it is not. *)
Theorem hook_calls_follow_requests app a w0 app' setup w0' (exposed : bool) rs w :
  monitor BaseMetrics app a w0 = Returned (app', setup) w0' ->
  request_middleware app = [] ->
  response_middleware app = [] ->
  quiet_before (default handlers.before_request_handler (before_handler a)) ->
  quiet_after (default handlers.after_request_endpoint_handler
                 (after_handler a)) ->
  Forall (fun rt => quiet_handler (r_handler rt)) (routes app) ->
  let served := if exposed then expose_endpoint lib setup app' else app' in
  let hooked :=
    if is_True (is_middleware a)
    then length (List.filter (included (metrics_path a)) rs)
    else 0 in
  exists resps w',
    serve served rs w = Returned resps w' /\
    length resps = length rs /\
    count_calls is_dispatch_call w' = count_calls is_dispatch_call w + length rs /\
    count_calls is_before_call w' = count_calls is_before_call w + hooked /\
    count_calls is_after_call w' = count_calls is_after_call w + hooked.
Proof.
  intros Hmon Hq Hp Hqb Hqa Hall served hooked.
  destruct (monitor_middleware _ _ _ _ _ _ Hmon Hq Hp)
    as (ge & _ & Hr' & Hq' & Hp').
  assert (Hsq : request_middleware served = request_middleware app')
    by (unfold served; now destruct exposed).
  assert (Hsp : response_middleware served = response_middleware app')
    by (unfold served; now destruct exposed).
  rewrite <- Hsq in Hq'. rewrite <- Hsp in Hp'.
  assert (Hserved : Forall (fun rt => quiet_handler (r_handler rt)) (routes served)).
  { apply (served_routes_Forall lib quiet_handler exposed setup app app' Hr');
      [apply expose_metrics_quiet | exact Hall]. }
  destruct (serve_counts served _ _ _ _ _ rs Hq' Hp' Hqb Hqa Hserved w)
    as (resps & w' & Hrun & Hlen & Hd & Hb & Ha).
  exists resps, w'. split; [exact Hrun |]. split; [exact Hlen |].
  split; [exact Hd |].
  unfold hooked. rewrite Hb, Ha.
  destruct (is_True (is_middleware a)); split; lia.
Qed.

Lemma fn_by_type_raise_pure t f w e w' :
  endpoint.fn_by_type t f w = Raised e w' -> w' = w.
Proof.
  destruct t; simpl; unfold ret; try discriminate.
  destruct f; unfold ret, raise; [discriminate | now inversion 1].
Qed.

(** X3. [monitor] itself has no effect on the process and adds no route:
    when it returns, the process state is as before, requests are routed
    as before, and the one start listener it adds is what will create the
    metrics; when it fails, it fails with the error of the endpoint
    resolver, again in the unchanged state. *)
Theorem monitor_leaves_process_and_routes app a w0 :
  match monitor BaseMetrics app a w0 with
  | Returned (app', setup) w' =>
      w' = w0 /\
      routes app' = routes app /\
      (forall r w, dispatch app' r w = dispatch app r w) /\
      List.filter (on_event "before_server_start") (listeners app')
      = List.filter (on_event "before_server_start") (listeners app) ++
        [("before_server_start",
          before_start (init_metrics_object a) (latency_buckets a)
            (multiprocess_mode a) (metrics_list a)
            (default BaseMetrics (base_metrics a)))]
  | Raised e w' =>
      w' = w0 /\
      endpoint.fn_by_type (endpoint_type a) (get_endpoint_fn a) w0 = Raised e w0
  end.
Proof.
  destruct (monitor BaseMetrics app a w0) as [[app' setup] w' | e w'] eqn:Hmon.
  - destruct (monitor_registers _ _ _ _ _ _ _ Hmon)
      as (-> & _ & ge & _ & Hr' & _ & _ & Hl).
    split; [reflexivity |]. split; [exact Hr' |]. split.
    + intros r w. unfold dispatch. now rewrite Hr'.
    + rewrite Hl, !List.filter_app.
      destruct (in_environ "prometheus_multiproc_dir" w0); simpl;
        now rewrite ?app_nil_r.
  - unfold monitor, bind, gets in Hmon.
    destruct (endpoint.fn_by_type (endpoint_type a) (get_endpoint_fn a) w0)
      as [ge w1 | e1 w1] eqn:Hfn; [discriminate |].
    inversion Hmon; subst.
    pose proof (fn_by_type_raise_pure _ _ _ _ _ Hfn) as ->.
    split; reflexivity.
Qed.

Lemma monitor_outcome_start_arguments app a buckets mode mlist bm obj w :
  match monitor BaseMetrics app a w,
        monitor BaseMetrics app (with_start_arguments buckets mode mlist bm obj a) w with
  | Returned _ _, Returned _ _ => True
  | Raised e1 w1, Raised e2 w2 => e1 = e2 /\ w1 = w2
  | _, _ => False
  end.
Proof.
  unfold monitor, bind, gets; simpl.
  destruct (endpoint.fn_by_type (endpoint_type a) (get_endpoint_fn a) w);
    simpl; auto.
Qed.

(** X4. The bucket boundaries, the aggregation mode, the metric list, the
    base metrics and the initial metrics object reach the start listener
    and nothing else: two calls of [monitor] that differ only in them
    fail together or return the same setup object, the same routes, the
    same middleware (so the same hooks, which are never told of these
    arguments) and the same shutdown listeners. *)
Theorem start_arguments_reach_only_the_start_listener
    app a buckets mode mlist bm obj w0 :
  match monitor BaseMetrics app a w0,
        monitor BaseMetrics app (with_start_arguments buckets mode mlist bm obj a) w0 with
  | Returned (app1, s1) _, Returned (app2, s2) _ =>
      s1 = s2 /\
      routes app1 = routes app2 /\
      request_middleware app1 = request_middleware app2 /\
      response_middleware app1 = response_middleware app2 /\
      List.filter (on_event "after_server_stop") (listeners app1)
        = List.filter (on_event "after_server_stop") (listeners app2) /\
      (forall r w, handle_request app1 r w = handle_request app2 r w)
  | Raised e1 w1, Raised e2 w2 => e1 = e2 /\ w1 = w2
  | _, _ => False
  end.
Proof.
  pose proof (monitor_outcome_start_arguments app a buckets mode mlist bm obj w0)
    as Hout.
  destruct (monitor BaseMetrics app a w0) as [[app1 s1] w1 | e1 w1] eqn:H1;
    destruct (monitor BaseMetrics app
                (with_start_arguments buckets mode mlist bm obj a) w0)
      as [[app2 s2] w2 | e2 w2] eqn:H2; try exact Hout.
  destruct (monitor_registers _ _ _ _ _ _ _ H1)
    as (_ & -> & ge1 & Hge1 & Hr1 & Hq1 & Hp1 & Hl1).
  destruct (monitor_registers _ _ _ _ _ _ _ H2)
    as (_ & -> & ge2 & Hge2 & Hr2 & Hq2 & Hp2 & Hl2).
  simpl in Hge2, Hr2, Hq2, Hp2, Hl2.
  rewrite Hge1 in Hge2. inversion Hge2; subst ge2.
  assert (Hrq : request_middleware app1 = request_middleware app2) by congruence.
  assert (Hrp : response_middleware app1 = response_middleware app2) by congruence.
  assert (Hrr : routes app1 = routes app2) by congruence.
  simpl. repeat split; try assumption.
  - rewrite Hl1, Hl2, !List.filter_app. reflexivity.
  - intros r w. unfold handle_request, dispatch. now rewrite Hrq, Hrp, Hrr.
Qed.

Lemma create_keeps_bound obj others lb mode d w :
  bound_to obj others w ->
  bound_to obj others (final_world (metrics.create lb mode d w)).
Proof.
  intros (Ho & Hsame & Hother).
  unfold metrics.create, bind, gets.
  destruct (ctx_metrics w !! metrics.d_key d); [repeat split; assumption |].
  destruct (metrics.registered (metrics.d_name d) w);
    [repeat split; assumption |].
  unfold modify, ctx_metrics_setitem, modify. simpl. rewrite Ho.
  destruct obj as [id |]; simpl.
  - repeat split; [exact Ho | |].
    + intros id' E. inversion E; subst. apply lookup_insert_eq.
    + intros id' E. etrans; [apply lookup_insert_ne; congruence | now apply Hother].
  - repeat split; [exact Ho | discriminate | exact Hother].
Qed.

Lemma for_each_create_keeps_bound obj others lb mode ds :
  forall w,
    bound_to obj others w ->
    bound_to obj others
      (final_world (for_each (metrics.create lb mode) ds w)).
Proof.
  induction ds as [|d ds IH]; intros w Hb; [exact Hb |].
  simpl. unfold bind.
  pose proof (create_keeps_bound obj others lb mode d w Hb) as Hd.
  destruct (metrics.create lb mode d w) as [[] w1 | e w1]; simpl in Hd.
  - now apply IH.
  - exact Hd.
Qed.

(** X5. Each server start rebinds [app.ctx.metrics]: what the name was
    bound to before has no influence. Without an initial object it is a
    new dict and no dict of the caller is written; with one, it is the
    caller's dict itself, not a copy: after the start the caller's dict
    holds exactly what [app.ctx.metrics] holds, and the other dicts are as
    they were. *)
Theorem server_start_rebinds_metrics app a w0 app' setup w0' m o w :
  monitor BaseMetrics app a w0 = Returned (app', setup) w0' ->
  List.filter (on_event "before_server_start") (listeners app) = [] ->
  (forall id, init_metrics_object a = Some id -> is_Some (dict_objects w !! id)) ->
  trigger "before_server_start" app' (set_ctx_metrics m (set_ctx_metrics_obj o w))
    = trigger "before_server_start" app' w /\
  ctx_metrics_obj (final_world (trigger "before_server_start" app' w))
    = init_metrics_object a /\
  (forall id,
     init_metrics_object a = Some id ->
     dict_objects (final_world (trigger "before_server_start" app' w)) !! id
     = Some (ctx_metrics (final_world (trigger "before_server_start" app' w)))) /\
  (forall id,
     init_metrics_object a <> Some id ->
     dict_objects (final_world (trigger "before_server_start" app' w)) !! id
     = dict_objects w !! id).
Proof.
  intros Hmon Hls Hobj.
  destruct (monitor_registers _ _ _ _ _ _ _ Hmon)
    as (_ & _ & ge & _ & _ & _ & _ & Hl).
  unfold trigger.
  change (fun l : string * M unit => String.eqb (fst l) "before_server_start")
    with (on_event "before_server_start").
  rewrite Hl, !List.filter_app, Hls.
  assert (Hone :
    forall v,
      for_each snd
        ([] ++ List.filter (on_event "before_server_start")
                 [("before_server_start",
                   before_start (init_metrics_object a) (latency_buckets a)
                     (multiprocess_mode a) (metrics_list a)
                     (default BaseMetrics (base_metrics a)))] ++
         List.filter (on_event "before_server_start")
           (if in_environ "prometheus_multiproc_dir" w0
            then [("after_server_stop", after_stop)] else [])) v
      = (metrics.init (latency_buckets a) (multiprocess_mode a) (metrics_list a)
           (default BaseMetrics (base_metrics a)) ;; ret tt)
          (match init_metrics_object a with
           | Some id =>
               set_ctx_metrics (default ∅ (dict_objects v !! id))
                 (set_ctx_metrics_obj (Some id) v)
           | None => set_ctx_metrics ∅ (set_ctx_metrics_obj None v)
           end)).
  { intros v. destruct (in_environ "prometheus_multiproc_dir" w0);
      destruct (init_metrics_object a); reflexivity. }
  rewrite !Hone. clear Hone.
  split; [destruct (init_metrics_object a); reflexivity |].
  set (start := match init_metrics_object a with
                | Some id =>
                    set_ctx_metrics (default ∅ (dict_objects w !! id))
                      (set_ctx_metrics_obj (Some id) w)
                | None => set_ctx_metrics ∅ (set_ctx_metrics_obj None w)
                end).
  assert (Hstart : bound_to (init_metrics_object a) (dict_objects w) start).
  { unfold start. destruct (init_metrics_object a) as [id |] eqn:Hio.
    - split; [reflexivity |]. split.
      + intros id' E. inversion E; subst. simpl.
        destruct (Hobj id' eq_refl) as [c Hc]. now rewrite Hc.
      + intros id' _. reflexivity.
    - split; [reflexivity |]. split; [discriminate | reflexivity]. }
  pose proof (for_each_create_keeps_bound _ _ (latency_buckets a)
                (multiprocess_mode a)
                (default (metrics.default_metrics (default BaseMetrics (base_metrics a)))
                   (metrics_list a))
                start Hstart) as Hend.
  assert (Hfinal :
    final_world
      ((metrics.init (latency_buckets a) (multiprocess_mode a) (metrics_list a)
          (default BaseMetrics (base_metrics a)) ;; ret tt) start)
    = final_world
        (for_each (metrics.create (latency_buckets a) (multiprocess_mode a))
           (default (metrics.default_metrics (default BaseMetrics (base_metrics a)))
              (metrics_list a)) start)).
  { unfold metrics.init, bind, ret.
    destruct (for_each _ _ start); reflexivity. }
  rewrite Hfinal. destruct Hend as (H1 & H2 & H3). auto.
Qed.

(** X6. The mode is fixed when [monitor] is called: [start_server] on the
    returned object raises the configuration error exactly when the
    variable was in the environment at that time, with any value; when it
    was not, [start_server] is [start_http_server], which binds the
    listener exactly when the bind succeeds. The environment at the time
    of [start_server] plays no part. *)
Theorem start_server_follows_environment_at_monitor
    app a w0 app' setup w0' addr port w :
  monitor BaseMetrics app a w0 = Returned (app', setup) w0' ->
  ((exists v, environ w0 !! "prometheus_multiproc_dir" = Some v)
     <-> exists msg, start_server setup addr port w
                     = Raised (SanicPrometheusError msg) w) /\
  (environ w0 !! "prometheus_multiproc_dir" = None ->
   start_server setup addr port w = start_http_server addr port w) /\
  ((environ w0 !! "prometheus_multiproc_dir" = None /\
    bind_failure addr port w = None)
     <-> start_server setup addr port w
         = Returned tt (set_http_servers (http_servers w ++ [(addr, port)]) w)).
Proof.
  intros Hmon.
  destruct (monitor_registers _ _ _ _ _ _ _ Hmon) as (_ & -> & _).
  unfold start_server, in_environ, raise. simpl.
  destruct (environ w0 !! "prometheus_multiproc_dir") as [v |].
  - split; [split; eauto |]. split; [discriminate |].
    split; [intros [H _] | intros H]; discriminate H.
  - split.
    { split; [intros (v & H); discriminate H |].
      intros (msg & H). exfalso. unfold start_http_server in H.
      destruct (bind_failure addr port w) as [e |] eqn:Hb; [| discriminate H].
      inversion H; subst.
      exact (bind_failure_not_config _ _ _ _ Hb msg eq_refl). }
    split; [reflexivity |].
    unfold start_http_server. split.
    + intros [_ Hb]. now rewrite Hb.
    + destruct (bind_failure addr port w); [discriminate | auto].
Qed.

(** A GET of the metrics path on the application with the exposition
    route. *)
Lemma handle_scrape app a w0 app' setup w0' r w :
  monitor BaseMetrics app a w0 = Returned (app', setup) w0' ->
  request_middleware app = [] ->
  response_middleware app = [] ->
  find_route (routes app) (metrics_path a) = None ->
  path r = metrics_path a ->
  method r = "GET" ->
  handle_request (expose_endpoint lib setup app') r w
  = Returned (raw (scrape_text lib setup w) (CONTENT_TYPE_LATEST lib))
             (set_calls (calls w ++ [route_dispatched (path r) "GET"]) w).
Proof.
  intros Hmon Hq Hp Hfree Hpath Hget.
  destruct (monitor_registers _ _ _ _ _ _ _ Hmon)
    as (_ & -> & ge & _ & Hr' & Hq' & Hp' & _).
  rewrite Hq in Hq'. rewrite Hp in Hp'. simpl in Hq', Hp'.
  set (self := {| _multiprocess_on := in_environ "prometheus_multiproc_dir" w0;
                  _metrics_path := metrics_path a |}) in *.
  assert (Hhandle : handle_request (expose_endpoint lib self app') r w
            = dispatch (expose_endpoint lib self app') r w).
  { destruct (is_True (is_middleware a)).
    - eapply handle_request_excluded; [exact Hq' | exact Hp' |].
      left. exact Hpath.
    - now apply handle_request_plain. }
  rewrite Hhandle. apply dispatch_scrape; [| exact Hget].
  simpl. rewrite Hr', find_route_app_None by (rewrite Hpath; exact Hfree).
  simpl. unfold same_route. now rewrite Hpath, String.eqb_refl.
Qed.

(** X7. Scrapes leave no trace: any number of GETs of the metrics path,
    one after the other, are each answered with status 200 and the
    content type of the text format, and they leave the metric objects,
    the registries and the hook calls as they were. *)
Theorem scrapes_leave_no_trace app a w0 app' setup w0' rs w :
  monitor BaseMetrics app a w0 = Returned (app', setup) w0' ->
  request_middleware app = [] ->
  response_middleware app = [] ->
  find_route (routes app) (metrics_path a) = None ->
  Forall (fun r => path r = metrics_path a /\ method r = "GET") rs ->
  exists resps w',
    serve (expose_endpoint lib setup app') rs w = Returned resps w' /\
    length resps = length rs /\
    Forall (fun resp => status resp = 200%Z /\
                        content_type resp = CONTENT_TYPE_LATEST lib) resps /\
    ctx_metrics w' = ctx_metrics w /\
    instruments w' = instruments w /\
    REGISTRY w' = REGISTRY w /\
    registries w' = registries w /\
    hook_calls w' = hook_calls w.
Proof.
  intros Hmon Hq Hp Hfree Hall. revert w.
  induction Hall as [|r rs [Hpath Hget] Hrest IH]; intros w.
  - exists [], w. simpl. unfold ret. repeat split. constructor.
  - set (w1 := set_calls (calls w ++ [route_dispatched (path r) "GET"]) w).
    destruct (IH w1) as (resps & w' & Hrun & Hlen & Hok & Hc & Hi & HR & Hrs & Hh).
    eexists (_ :: resps), w'. simpl. unfold bind at 1.
    rewrite (handle_scrape app a w0 app' setup w0' r w Hmon Hq Hp Hfree Hpath Hget).
    fold w1. unfold bind at 1. rewrite Hrun. unfold ret.
    split; [reflexivity |]. split; [simpl; now rewrite Hlen |].
    split; [constructor; [split; reflexivity | exact Hok] |].
    repeat split; try assumption.
    rewrite Hh. unfold hook_calls, w1. simpl.
    rewrite List.filter_app. simpl. apply app_nil_r.
Qed.

(** X8. [monitor] is not idempotent: a second call on the same application
    adds a second copy of the middleware and of the shutdown listener, so
    that an included request passes each hook twice and the shutdown marks
    the process dead twice. *)
Theorem monitor_twice_instruments_twice
    app a w0 app1 s1 w1 app2 s2 w2 r w :
  monitor BaseMetrics app a w0 = Returned (app1, s1) w1 ->
  monitor BaseMetrics app1 a w0 = Returned (app2, s2) w2 ->
  is_middleware a = PyBool true ->
  request_middleware app = [] ->
  response_middleware app = [] ->
  List.filter (on_event "after_server_stop") (listeners app) = [] ->
  quiet_before (default handlers.before_request_handler (before_handler a)) ->
  quiet_after (default handlers.after_request_endpoint_handler
                 (after_handler a)) ->
  Forall (fun rt => quiet_handler (r_handler rt)) (routes app) ->
  included (metrics_path a) r = true ->
  s2 = s1 /\
  length (request_middleware app2) = 2 /\
  length (response_middleware app2) = 2 /\
  (exists w',
     trigger "after_server_stop" app2 w = Returned tt w' /\
     marked_dead w' = marked_dead w ++
                      (if _multiprocess_on s1 then [pid w; pid w] else [])) /\
  (exists resp w',
     handle_request app2 r w = Returned resp w' /\
     calls w' = calls w ++
                [before_handler_called (path r) (method r);
                 before_handler_called (path r) (method r);
                 route_dispatched (path r) (method r);
                 after_handler_called (path r) (method r) (status resp);
                 after_handler_called (path r) (method r) (status resp)]).
Proof.
  intros H1 H2 Hmw Hq Hp Hls Hqb Hqa Hall Hin.
  destruct (monitor_registers _ _ _ _ _ _ _ H1)
    as (_ & -> & ge1 & Hge1 & Hr1 & Hq1 & Hp1 & Hl1).
  destruct (monitor_registers _ _ _ _ _ _ _ H2)
    as (_ & -> & ge2 & Hge2 & Hr2 & Hq2 & Hp2 & Hl2).
  rewrite Hge1 in Hge2. inversion Hge2; subst ge2.
  rewrite Hq1, Hq, Hmw in Hq2. rewrite Hp1, Hp, Hmw in Hp2.
  simpl in Hq2, Hp2.
  split; [reflexivity |]. split; [now rewrite Hq2 |]. split; [now rewrite Hp2 |].
  split.
  - unfold trigger.
    change (fun l : string * M unit => String.eqb (fst l) "after_server_stop")
      with (on_event "after_server_stop").
    rewrite Hl2, Hl1, !List.filter_app, Hls. simpl.
    destruct (in_environ "prometheus_multiproc_dir" w0); simpl.
    + eexists. split; [reflexivity |]. simpl. now rewrite <- app_assoc.
    + eexists. split; [reflexivity |]. simpl. now rewrite app_nil_r.
  - assert (Hall2 : Forall (fun rt => quiet_handler (r_handler rt)) (routes app2))
      by (rewrite Hr2, Hr1; exact Hall).
    destruct (handle_request_copies app2 _ _ _ _ 2 r w Hq2 Hp2 Hqb Hqa Hall2)
      as (resp & w' & Hrun & Hc).
    exists resp, w'. split; [exact Hrun |].
    rewrite Hc, Hin. reflexivity.
Qed.

Lemma before_request_keeps_route P bh :
  keeps_route bh -> keeps_route (before_request P bh).
Proof.
  intros Hk r w r' w' H. rewrite before_request_unfold in H.
  destruct (included P r); [exact (Hk _ _ _ _ H) |].
  inversion H. split; reflexivity.
Qed.

Lemma find_route_app_other rs rt p :
  same_route (r_path rt) p = false -> find_route (rs ++ [rt]) p = find_route rs p.
Proof.
  intros Hne. induction rs as [|x rs IH]; simpl.
  - now rewrite Hne.
  - now rewrite IH.
Qed.

(** X9. [expose_endpoint] adds its route and nothing else: the middleware
    and the listeners stay as they are, and a request to a path that the
    route does not answer (neither the metrics path nor the same path with
    or without a trailing separator) is handled exactly as without the
    route. *)
Theorem expose_endpoint_leaves_other_paths
    (self : MonitorSetup) (app : App) (r : Request) (w : World) :
  same_route (_metrics_path self) (path r) = false ->
  (forall bh : Request -> M Request,
     In bh (request_middleware app) -> keeps_route bh) ->
  request_middleware (expose_endpoint lib self app) = request_middleware app /\
  response_middleware (expose_endpoint lib self app) = response_middleware app /\
  listeners (expose_endpoint lib self app) = listeners app /\
  dispatch (expose_endpoint lib self app) r w = dispatch app r w /\
  handle_request (expose_endpoint lib self app) r w = handle_request app r w.
Proof.
  intros Hpath Hkeep.
  assert (Hd : forall r' w', path r' = path r ->
             dispatch (expose_endpoint lib self app) r' w' = dispatch app r' w').
  { intros r' w' E. unfold dispatch. simpl routes.
    rewrite find_route_app_other; [reflexivity |]. simpl. now rewrite E. }
  repeat split; [now apply Hd |].
  unfold handle_request. simpl request_middleware. simpl response_middleware.
  assert (Hrun : forall mws r0 w0 r1 w1,
             (forall bh, In bh mws -> keeps_route bh) ->
             run_request_middleware mws r0 w0 = Returned r1 w1 ->
             path r1 = path r0).
  { induction mws as [|mw mws IH]; intros r0 w0 r1 w1 Hk Hrun; simpl in Hrun.
    - unfold ret in Hrun. now inversion Hrun.
    - unfold bind in Hrun. destruct (mw r0 w0) as [r' w' | e w'] eqn:Hmw;
        [| discriminate].
      destruct (Hk mw (or_introl eq_refl) _ _ _ _ Hmw) as (Hp' & _).
      rewrite (IH r' w' r1 w1); [exact Hp' | | exact Hrun].
      intros bh Hbh. apply Hk. now right. }
  unfold bind at 1. unfold bind at 3.
  destruct (run_request_middleware (request_middleware app) r w)
    as [r1 w1 | e w1] eqn:Hrq; [| reflexivity].
  unfold bind at 1. unfold bind at 2.
  now rewrite (Hd r1 w1 (Hrun _ _ _ _ _ Hkeep Hrq)).
Qed.

(** X10. The exclusion compares the path of the request with the metrics
    path as written, while the route also answers the path with a trailing
    separator: a GET of the metrics path with a trailing separator added
    is answered by the exposition handler, with status 200 and the content
    type of the text format, and it is not excluded: both hooks are called
    for it, once each around the dispatch. *)
Theorem scrape_with_trailing_separator_is_instrumented
    app a w0 app' setup w0' r w :
  monitor BaseMetrics app a w0 = Returned (app', setup) w0' ->
  is_middleware a = PyBool true ->
  request_middleware app = [] ->
  response_middleware app = [] ->
  quiet_before (default handlers.before_request_handler (before_handler a)) ->
  quiet_after (default handlers.after_request_endpoint_handler (after_handler a)) ->
  find_route (routes app) (path r) = None ->
  same_route (metrics_path a) (path r) = true ->
  path r <> metrics_path a ->
  method r = "GET" ->
  exists data w',
    handle_request (expose_endpoint lib setup app') r w
    = Returned (raw data (CONTENT_TYPE_LATEST lib)) w' /\
    calls w' = calls w ++ [before_handler_called (path r) "GET";
                           route_dispatched (path r) "GET";
                           after_handler_called (path r) "GET" 200].
Proof.
  intros Hmon Hmw Hq Hp Hqb Hqa Hfree Hsame Hpath Hget.
  destruct (monitor_middleware _ _ _ _ _ _ Hmon Hq Hp)
    as (ge & _ & Hr' & Hq' & Hp').
  destruct (monitor_registers _ _ _ _ _ _ _ Hmon) as (_ & -> & _).
  rewrite Hmw in Hq', Hp'.
  change (if is_True (PyBool true) then 1 else 0) with 1 in Hq', Hp'.
  set (self := {| _multiprocess_on := in_environ "prometheus_multiproc_dir" w0;
                  _metrics_path := metrics_path a |}) in *.
  assert (Hin : included (metrics_path a) r = true).
  { unfold included. apply String.eqb_neq in Hpath.
    now rewrite Hpath, Hget. }
  unfold handle_request. simpl request_middleware. simpl response_middleware.
  rewrite Hq', Hp'.
  destruct (run_before_copies (metrics_path a) _ 1 Hqb r w)
    as (r1 & w1 & H1 & Hp1 & Hm1 & Hc1).
  unfold bind at 1. rewrite H1.
  assert (Hd : dispatch (expose_endpoint lib self app') r1 w1
               = Returned (raw (scrape_text lib self w1) (CONTENT_TYPE_LATEST lib))
                   (set_calls (calls w1 ++ [route_dispatched (path r1) "GET"]) w1)).
  { unfold dispatch. simpl routes. rewrite Hr', Hp1.
    rewrite find_route_app_None by exact Hfree. simpl r_path.
    rewrite Hsame, Hm1, Hget. simpl.
    unfold bind, log_call, modify, expose_metrics, bind, ret.
    rewrite get_metrics_data_eq. reflexivity. }
  unfold bind at 1. rewrite Hd.
  destruct (run_after_copies (metrics_path a) _ ge 1
              (raw (scrape_text lib self w1) (CONTENT_TYPE_LATEST lib)) Hqa r1
              (set_calls (calls w1 ++ [route_dispatched (path r1) "GET"]) w1))
    as (r3 & w3 & H3 & _ & _ & Hc3).
  unfold bind at 1. rewrite H3. unfold ret.
  eexists _, w3. split; [reflexivity |].
  rewrite Hc3. simpl calls. rewrite Hc1.
  rewrite (included_same _ r r1 Hp1 Hm1), Hin, Hp1, Hm1, Hget. simpl.
  now rewrite <- !app_assoc.
Qed.

End Further.

(** ** The further properties at work on the concrete process *)

Section FurtherExamples.
Import base sanic prometheus_client.

Lemma custom_hooks_wrap_dispatch_witness :
  exists get_endpoint,
    endpoint.fn_by_type endpoint.url None demo_world
      = Returned get_endpoint demo_world /\
    handle_request (fst (demo_monitor demo_args_custom_hooks demo_world))
      demo_request demo_world =
      (log_call (before_handler_called (path demo_request) (method demo_request)) ;;
       r1 <- demo_before demo_request ;;
       resp <- dispatch (fst (demo_monitor demo_args_custom_hooks demo_world)) r1 ;;
       log_call (after_handler_called (path demo_request) (method demo_request)
                   (status resp)) ;;
       demo_after r1 resp get_endpoint ;;
       ret resp) demo_world.
Proof.
  apply (custom_hooks_wrap_dispatch demo_metrics demo_app demo_args_custom_hooks
           demo_world
           (fst (demo_monitor demo_args_custom_hooks demo_world))
           (snd (demo_monitor demo_args_custom_hooks demo_world))
           demo_world demo_before demo_after demo_request demo_world).
  - reflexivity.
  - reflexivity.
  - reflexivity.
  - reflexivity.
  - reflexivity.
  - reflexivity.
  - intros r w r' w' H. inversion H. split; reflexivity.
  - discriminate.
  - discriminate.
Defined.

Lemma hook_calls_follow_requests_witness :
  exists resps w',
    serve (demo_served default_args demo_world)
      [demo_request; demo_scrape;
       {| path := "/users/42/orders"; method := "OPTIONS"; ctx := None |}]
      (demo_started demo_world)
    = Returned resps w' /\
    length resps = 3 /\
    count_calls is_dispatch_call w'
      = count_calls is_dispatch_call (demo_started demo_world) + 3 /\
    count_calls is_before_call w'
      = count_calls is_before_call (demo_started demo_world) + 1 /\
    count_calls is_after_call w'
      = count_calls is_after_call (demo_started demo_world) + 1.
Proof.
  apply (hook_calls_follow_requests demo_lib demo_metrics demo_app default_args
           demo_world
           (fst (demo_monitor default_args demo_world))
           (snd (demo_monitor default_args demo_world))
           demo_world true
           [demo_request; demo_scrape;
            {| path := "/users/42/orders"; method := "OPTIONS"; ctx := None |}]
           (demo_started demo_world)).
  - reflexivity.
  - reflexivity.
  - reflexivity.
  - apply default_before_quiet.
  - apply default_after_quiet.
  - constructor; [| constructor]. intros r w. eexists _, _. split; reflexivity.
Defined.

Lemma server_start_rebinds_metrics_witness :
  trigger "before_server_start" (fst (demo_monitor demo_args_init_object demo_world))
    (set_ctx_metrics {[ "stale" := 7 ]}
       (set_ctx_metrics_obj (Some 3) demo_world_with_dict))
    = trigger "before_server_start"
        (fst (demo_monitor demo_args_init_object demo_world)) demo_world_with_dict /\
  ctx_metrics_obj
    (final_world
       (trigger "before_server_start"
          (fst (demo_monitor demo_args_init_object demo_world)) demo_world_with_dict))
    = init_metrics_object demo_args_init_object /\
  (forall id,
     init_metrics_object demo_args_init_object = Some id ->
     dict_objects
       (final_world
          (trigger "before_server_start"
             (fst (demo_monitor demo_args_init_object demo_world))
             demo_world_with_dict)) !! id
     = Some (ctx_metrics
               (final_world
                  (trigger "before_server_start"
                     (fst (demo_monitor demo_args_init_object demo_world))
                     demo_world_with_dict)))) /\
  (forall id,
     init_metrics_object demo_args_init_object <> Some id ->
     dict_objects
       (final_world
          (trigger "before_server_start"
             (fst (demo_monitor demo_args_init_object demo_world))
             demo_world_with_dict)) !! id
     = dict_objects demo_world_with_dict !! id).
Proof.
  apply (server_start_rebinds_metrics demo_metrics demo_app demo_args_init_object
           demo_world
           (fst (demo_monitor demo_args_init_object demo_world))
           (snd (demo_monitor demo_args_init_object demo_world))
           demo_world {[ "stale" := 7 ]} (Some 3) demo_world_with_dict).
  - reflexivity.
  - reflexivity.
  - intros id H. change (Some 5 = Some id) in H. inversion H.
    eexists. reflexivity.
Defined.

(** The caller's dict after that start: the entry it had, and the two
    request metrics that [metrics.init] stored in it. *)
Example demo_start_writes_callers_dict :
  let w' := final_world
              (trigger "before_server_start"
                 (fst (demo_monitor demo_args_init_object demo_world))
                 demo_world_with_dict) in
  dict_objects w' !! 5
  = Some (<[count_key := 1]> (<[latency_key := 0]> {[ "custom" := 9 ]})) /\
  ctx_metrics w' = <[count_key := 1]> (<[latency_key := 0]> {[ "custom" := 9 ]}).
Proof. vm_compute. split; reflexivity. Qed.

Lemma start_server_follows_environment_at_monitor_witness :
  ((exists v, environ demo_world_empty_var !! "prometheus_multiproc_dir" = Some v)
     <-> exists msg,
           start_server (snd (demo_monitor default_args demo_world_empty_var))
             "" 8000 demo_world
           = Raised (SanicPrometheusError msg) demo_world) /\
  (environ demo_world_empty_var !! "prometheus_multiproc_dir" = None ->
   start_server (snd (demo_monitor default_args demo_world_empty_var))
     "" 8000 demo_world
   = start_http_server "" 8000 demo_world) /\
  ((environ demo_world_empty_var !! "prometheus_multiproc_dir" = None /\
    bind_failure "" 8000 demo_world = None)
     <-> start_server (snd (demo_monitor default_args demo_world_empty_var))
           "" 8000 demo_world
         = Returned tt
             (set_http_servers (http_servers demo_world ++ [("", 8000%Z)]) demo_world)).
Proof.
  apply (start_server_follows_environment_at_monitor demo_metrics demo_app
           default_args demo_world_empty_var
           (fst (demo_monitor default_args demo_world_empty_var))
           (snd (demo_monitor default_args demo_world_empty_var))
           demo_world_empty_var "" 8000%Z demo_world).
  reflexivity.
Defined.

Lemma scrapes_leave_no_trace_witness :
  exists resps w',
    serve (demo_served default_args demo_world)
      [demo_scrape; demo_scrape; demo_scrape] (demo_started demo_world)
    = Returned resps w' /\
    length resps = length [demo_scrape; demo_scrape; demo_scrape] /\
    Forall (fun resp => status resp = 200%Z /\
                        content_type resp = CONTENT_TYPE_LATEST demo_lib) resps /\
    ctx_metrics w' = ctx_metrics (demo_started demo_world) /\
    instruments w' = instruments (demo_started demo_world) /\
    REGISTRY w' = REGISTRY (demo_started demo_world) /\
    registries w' = registries (demo_started demo_world) /\
    hook_calls w' = hook_calls (demo_started demo_world).
Proof.
  apply (scrapes_leave_no_trace demo_lib demo_metrics demo_app default_args
           demo_world
           (fst (demo_monitor default_args demo_world))
           (snd (demo_monitor default_args demo_world))
           demo_world [demo_scrape; demo_scrape; demo_scrape]
           (demo_started demo_world)).
  - reflexivity.
  - reflexivity.
  - reflexivity.
  - reflexivity.
  - repeat constructor.
Defined.

Lemma monitor_twice_instruments_twice_witness :
  snd (demo_monitor_twice default_args demo_world_mp)
    = snd (demo_monitor default_args demo_world_mp) /\
  length (request_middleware (fst (demo_monitor_twice default_args demo_world_mp))) = 2 /\
  length (response_middleware (fst (demo_monitor_twice default_args demo_world_mp))) = 2 /\
  (exists w',
     trigger "after_server_stop" (fst (demo_monitor_twice default_args demo_world_mp))
       (demo_started demo_world_mp)
     = Returned tt w' /\
     marked_dead w'
     = marked_dead (demo_started demo_world_mp) ++
       (if _multiprocess_on (snd (demo_monitor default_args demo_world_mp))
        then [pid (demo_started demo_world_mp); pid (demo_started demo_world_mp)]
        else [])) /\
  (exists resp w',
     handle_request (fst (demo_monitor_twice default_args demo_world_mp))
       demo_request (demo_started demo_world_mp)
     = Returned resp w' /\
     calls w' = calls (demo_started demo_world_mp) ++
                [before_handler_called (path demo_request) (method demo_request);
                 before_handler_called (path demo_request) (method demo_request);
                 route_dispatched (path demo_request) (method demo_request);
                 after_handler_called (path demo_request) (method demo_request)
                   (status resp);
                 after_handler_called (path demo_request) (method demo_request)
                   (status resp)]).
Proof.
  apply (monitor_twice_instruments_twice demo_metrics demo_app default_args
           demo_world_mp
           (fst (demo_monitor default_args demo_world_mp))
           (snd (demo_monitor default_args demo_world_mp))
           demo_world_mp
           (fst (demo_monitor_twice default_args demo_world_mp))
           (snd (demo_monitor_twice default_args demo_world_mp))
           demo_world_mp demo_request (demo_started demo_world_mp)).
  - reflexivity.
  - reflexivity.
  - reflexivity.
  - reflexivity.
  - reflexivity.
  - reflexivity.
  - apply default_before_quiet.
  - apply default_after_quiet.
  - constructor; [| constructor]. intros r w. eexists _, _. split; reflexivity.
  - reflexivity.
Defined.

Lemma expose_endpoint_leaves_other_paths_witness :
  request_middleware (demo_served default_args demo_world)
    = request_middleware (fst (demo_monitor default_args demo_world)) /\
  response_middleware (demo_served default_args demo_world)
    = response_middleware (fst (demo_monitor default_args demo_world)) /\
  listeners (demo_served default_args demo_world)
    = listeners (fst (demo_monitor default_args demo_world)) /\
  dispatch (demo_served default_args demo_world) demo_request
    (demo_started demo_world)
    = dispatch (fst (demo_monitor default_args demo_world)) demo_request
        (demo_started demo_world) /\
  handle_request (demo_served default_args demo_world) demo_request
    (demo_started demo_world)
    = handle_request (fst (demo_monitor default_args demo_world)) demo_request
        (demo_started demo_world).
Proof.
  apply (expose_endpoint_leaves_other_paths demo_lib
           (snd (demo_monitor default_args demo_world))
           (fst (demo_monitor default_args demo_world))
           demo_request (demo_started demo_world)).
  - reflexivity.
  - intros bh Hin.
    change (In bh [before_request "/metrics" handlers.before_request_handler]) in Hin.
    destruct Hin as [<- | []].
    apply before_request_keeps_route.
    intros r w r' w' H. inversion H. split; reflexivity.
Defined.

Lemma scrape_with_trailing_separator_is_instrumented_witness :
  exists data w',
    handle_request (demo_served default_args demo_world) demo_scrape_slash
      (demo_started demo_world)
    = Returned (raw data (CONTENT_TYPE_LATEST demo_lib)) w' /\
    calls w' = calls (demo_started demo_world)
               ++ [before_handler_called (path demo_scrape_slash) "GET";
                   route_dispatched (path demo_scrape_slash) "GET";
                   after_handler_called (path demo_scrape_slash) "GET" 200].
Proof.
  apply (scrape_with_trailing_separator_is_instrumented demo_lib demo_metrics
           demo_app default_args demo_world
           (fst (demo_monitor default_args demo_world))
           (snd (demo_monitor default_args demo_world))
           demo_world demo_scrape_slash (demo_started demo_world)).
  - reflexivity.
  - reflexivity.
  - reflexivity.
  - reflexivity.
  - apply default_before_quiet.
  - apply default_after_quiet.
  - reflexivity.
  - reflexivity.
  - discriminate.
  - reflexivity.
Defined.

(** The scrape with the trailing separator is itself recorded, under the
    label of its path. *)
Example demo_scrape_slash_recorded :
  let w' := final_world (handle_request (demo_served default_args demo_world)
                           demo_scrape_slash (demo_started demo_world)) in
  samples_of count_key w'
  = [{| s_labels := [("endpoint", "/metrics/"); ("method", "GET"); ("status", "2xx")];
        s_value := 1 |}].
Proof. vm_compute. reflexivity. Qed.

End FurtherExamples.
